(** * flask-login-app: password policy, configuration and route handlers

    A shallow embedding of [forms.py], [config.py] and [app.py].

    Conventions.
    - A Python [str] that holds run-time data (form fields, environment
      values, query parameters) is a list of Unicode code points, [pystr].
      [len] is [length], indexing is by code point.
    - Text constants of the program (messages, template names, names of
      environment variables) are Rocq strings; [codepoints] turns one into
      the [pystr] it denotes.
    - What the program takes from libraries and from the absent [models.py]
      is collected in the class [Externals]. *)

From Stdlib Require Import ZArith NArith List String Ascii Bool Decimal DecimalN Lia.
From stdpp Require Import base option list gmap strings.

Local Open Scope string_scope.
Local Open Scope N_scope.

(** ** Python values *)

Definition pystr : Type := list N.

Definition codepoints (s : string) : pystr :=
  map N_of_ascii (list_ascii_of_string s).

(** Exceptions the modelled code can raise. *)
Inductive exn : Type :=
| ValueError (msg : string)
| IntegrityError (msg : string).

Inductive result (A : Type) : Type :=
| Ok (a : A)
| Raise (e : exn).
Arguments Ok {A} a.
Arguments Raise {A} e.

(** ** What the program imports

    The Unicode character database behind [str.isupper], [str.islower],
    [str.isdigit], [str.isspace] and [int] is consulted only outside ASCII;
    inside ASCII the classes are written out below.  [email_syntax_ok] is
    the check of wtforms' [Email] validator.  The two hash functions are
    werkzeug's, reached through the [User] model. *)
Class Externals : Type := {
  unicode_isupper : N -> bool;
  unicode_islower : N -> bool;
  unicode_isdigit : N -> bool;
  unicode_isspace : N -> bool;
  unicode_decimal : N -> option N;
  email_syntax_ok : pystr -> bool;
  generate_password_hash : N -> pystr -> pystr;
  check_password_hash : pystr -> pystr -> bool
}.

Section Characters.
Context `{!Externals}.

Definition in_range (lo hi c : N) : bool := (lo <=? c) && (c <=? hi).

Definition isupper (c : N) : bool :=
  if c <? 128 then in_range 65 90 c else unicode_isupper c.

Definition islower (c : N) : bool :=
  if c <? 128 then in_range 97 122 c else unicode_islower c.

Definition isdigit (c : N) : bool :=
  if c <? 128 then in_range 48 57 c else unicode_isdigit c.

(** ASCII white space of Python: TAB, LF, VT, FF, CR, FS, GS, RS, US, SP. *)
Definition isspace (c : N) : bool :=
  if c <? 128 then in_range 9 13 c || in_range 28 32 c else unicode_isspace c.

(** [any(pred(c) for c in s)] *)
Definition any (pred : N -> bool) (s : pystr) : bool := existsb pred s.

(** [s.lstrip()], [s.rstrip()] and [s.strip()] with no argument. *)
Fixpoint lstrip (s : pystr) : pystr :=
  match s with
  | c :: r => if isspace c then lstrip r else s
  | [] => []
  end.

Definition rstrip (s : pystr) : pystr := rev (lstrip (rev s)).

Definition strip (s : pystr) : pystr := rstrip (lstrip s).
End Characters.

(** ** [forms.py]: PasswordValidator *)

(** The character class of
    [re.search(r'[!@#$%^&*()\-_=+{};:,<.>]', password)]. *)
Definition special_characters : pystr :=
  codepoints "!@#$%^&*()-_=+{};:,<.>".

Definition is_special (c : N) : bool := existsb (N.eqb c) special_characters.

(** [re.search] of a one-character class: some character is in the class. *)
Definition re_search_special (s : pystr) : bool := existsb is_special s.

Definition msg_length : string :=
  "Password must be at least 12 characters long.".
Definition msg_uppercase : string :=
  "Password must contain at least one uppercase letter.".
Definition msg_lowercase : string :=
  "Password must contain at least one lowercase letter.".
Definition msg_number : string :=
  "Password must contain at least one number.".
Definition msg_special : string :=
  "Password must contain at least one special character.".

Section PasswordPolicy.
Context `{!Externals}.

(** [PasswordValidator.__call__]: [None] when the call returns, [Some m]
    when it raises [ValidationError(m)]. *)
Definition PasswordValidator_call (password : pystr) : option string :=
  if N.of_nat (length password) <? 12 then Some msg_length
  else if negb (any isupper password) then Some msg_uppercase
  else if negb (any islower password) then Some msg_lowercase
  else if negb (any isdigit password) then Some msg_number
  else if negb (re_search_special password) then Some msg_special
  else None.

Definition accepts (password : pystr) : bool :=
  match PasswordValidator_call password with
  | None => true
  | Some _ => false
  end.
End PasswordPolicy.

(** ** [int(s)] and [str(n)] *)

Section Integers.
Context `{!Externals}.

(** The decimal value of a character, as [int] reads it. *)
Definition decimal_value (c : N) : option N :=
  if c <? 128 then (if in_range 48 57 c then Some (c - 48) else None)
  else unicode_decimal c.

Definition push_digit (v : N) (u : uint) : option uint :=
  match v with
  | 0 => Some (D0 u) | 1 => Some (D1 u) | 2 => Some (D2 u) | 3 => Some (D3 u)
  | 4 => Some (D4 u) | 5 => Some (D5 u) | 6 => Some (D6 u) | 7 => Some (D7 u)
  | 8 => Some (D8 u) | 9 => Some (D9 u) | _ => None
  end.

Fixpoint uint_of_digits (s : pystr) : option uint :=
  match s with
  | [] => Some Nil
  | c :: r =>
      match decimal_value c, uint_of_digits r with
      | Some v, Some u => push_digit v u
      | _, _ => None
      end
  end.

(** An underscore is allowed between two digits only; the empty literal
    is refused. *)
Fixpoint drop_underscores (after_digit : bool) (s : pystr) : option pystr :=
  match s with
  | [] => if after_digit then Some [] else None
  | c :: r =>
      if c =? 95 then
        if after_digit then drop_underscores false r else None
      else option_map (cons c) (drop_underscores true r)
  end.

Definition nat_literal (s : pystr) : option N :=
  match drop_underscores false s with
  | Some d => option_map N.of_uint (uint_of_digits d)
  | None => None
  end.

Definition invalid_literal : exn :=
  ValueError "invalid literal for int() with base 10".

(** [int(s)] for a string [s]: white space around, an optional sign,
    decimal digits. *)
Definition py_int (s : pystr) : result Z :=
  let lit (neg : bool) (d : pystr) :=
    match nat_literal d with
    | Some n => Ok (if neg then Z.opp (Z.of_N n) else Z.of_N n)
    | None => Raise invalid_literal
    end in
  match strip s with
  | 43 :: d => lit false d
  | 45 :: d => lit true d
  | d => lit false d
  end.
End Integers.

Fixpoint digits_of_uint (u : uint) : pystr :=
  match u with
  | Nil => []
  | D0 r => 48 :: digits_of_uint r | D1 r => 49 :: digits_of_uint r
  | D2 r => 50 :: digits_of_uint r | D3 r => 51 :: digits_of_uint r
  | D4 r => 52 :: digits_of_uint r | D5 r => 53 :: digits_of_uint r
  | D6 r => 54 :: digits_of_uint r | D7 r => 55 :: digits_of_uint r
  | D8 r => 56 :: digits_of_uint r | D9 r => 57 :: digits_of_uint r
  end.

(** [str(z)] for an integer [z]. *)
Definition py_str_of_int (z : Z) : pystr :=
  match z with
  | Z0 => [48]
  | Zpos p => digits_of_uint (Pos.to_uint p)
  | Zneg p => 45 :: digits_of_uint (Pos.to_uint p)
  end.

(** ** [config.py] *)

(** [os.environ] once [load_dotenv()] has run. *)
Definition environ : Type := gmap string pystr.

(** [os.getenv(key)] and [os.getenv(key, default)] *)
Definition getenv (env : environ) (key : string) : option pystr := env !! key.

Definition getenv_default (env : environ) (key : string) (default : string) : pystr :=
  match env !! key with
  | Some v => v
  | None => codepoints default
  end.

Definition dev_key : string := "dev-key-for-development-only".

(** The attributes of class [Config] that the handlers, the limiter and
    the start-up read.  The header, CORS and CSP attributes are read from
    the environment in the same way and none of them can raise. *)
Record Config : Type := {
  FLASK_ENV : pystr;
  SECRET_KEY : pystr;
  SQLALCHEMY_DATABASE_URI : pystr;
  DEFAULT_RATE_LIMIT_DAY : pystr;
  DEFAULT_RATE_LIMIT_HOUR : pystr;
  LOGIN_RATE_LIMIT : pystr;
  REGISTER_RATE_LIMIT : pystr;
  PASSWORD_RESET_LIMIT : pystr;
  MIN_PASSWORD_LENGTH : Z;
  PASSWORD_HASH_METHOD : pystr;
  PASSWORD_HASH_ITERATIONS : Z
}.

Inductive ConfigClass : Type := DevelopmentConfig | ProductionConfig.

(** Class attribute [DEBUG] of the two subclasses. *)
Definition DEBUG (c : ConfigClass) : bool :=
  match c with
  | DevelopmentConfig => true
  | ProductionConfig => false
  end.

(** The dictionary [config]. *)
Definition config : gmap string ConfigClass :=
  {[ "development" := DevelopmentConfig;
     "production" := ProductionConfig;
     "default" := DevelopmentConfig ]}.

(** A [pystr] as a Rocq string, when all its code points fit a byte; the
    keys of the program's dictionaries are ASCII, so no other string can
    be equal to one of them. *)
Fixpoint text_of (s : pystr) : option string :=
  match s with
  | [] => Some EmptyString
  | c :: r =>
      if c <? 256 then option_map (String (ascii_of_N c)) (text_of r) else None
  end.

(** [config.get(key, default)] *)
Definition config_get (key : pystr) (default : ConfigClass) : ConfigClass :=
  match text_of key with
  | Some k => match config !! k with Some c => c | None => default end
  | None => default
  end.

Section Configuration.
Context `{!Externals}.

(** The body of class [Config], run when [config.py] is imported. *)
Definition Config_body (env : environ) : result Config :=
  match py_int (getenv_default env "MIN_PASSWORD_LENGTH" "12") with
  | Raise e => Raise e
  | Ok min_len =>
      match py_int (getenv_default env "PASSWORD_HASH_ITERATIONS" "150000") with
      | Raise e => Raise e
      | Ok iterations =>
          Ok {| FLASK_ENV := getenv_default env "FLASK_ENV" "development";
                SECRET_KEY := getenv_default env "SECRET_KEY" dev_key;
                SQLALCHEMY_DATABASE_URI :=
                  getenv_default env "DATABASE_URI" "sqlite:///login_app.db";
                DEFAULT_RATE_LIMIT_DAY :=
                  getenv_default env "DEFAULT_RATE_LIMIT_DAY" "200";
                DEFAULT_RATE_LIMIT_HOUR :=
                  getenv_default env "DEFAULT_RATE_LIMIT_HOUR" "50";
                LOGIN_RATE_LIMIT := getenv_default env "LOGIN_RATE_LIMIT" "5/minute";
                REGISTER_RATE_LIMIT :=
                  getenv_default env "REGISTER_RATE_LIMIT" "3/hour";
                PASSWORD_RESET_LIMIT :=
                  getenv_default env "PASSWORD_RESET_LIMIT" "3/hour";
                MIN_PASSWORD_LENGTH := min_len;
                PASSWORD_HASH_METHOD :=
                  getenv_default env "PASSWORD_HASH_METHOD" "pbkdf2:sha256";
                PASSWORD_HASH_ITERATIONS := iterations |}
      end
  end.

(** [ProductionConfig.__init__]: runs when the class is instantiated. *)
Definition ProductionConfig_init (env : environ) : result unit :=
  if decide (getenv env "SECRET_KEY" = Some (codepoints dev_key))
  then Raise (ValueError "SECRET_KEY must be set to a secure value in production!")
  else Ok tt.

(** [get_config()]: returns the class itself, not an instance. *)
Definition get_config (env : environ) : ConfigClass :=
  let flask_env := getenv_default env "FLASK_ENV" "development" in
  config_get flask_env (config_get (codepoints "default") DevelopmentConfig).

(** [app.config] after [from_object]: the upper-case attributes of the
    object it is given, read with [getattr]; a class is not instantiated. *)
Record AppConfig : Type := {
  config_class : ConfigClass;
  config_attrs : Config
}.

Definition from_object (cls : ConfigClass) (attrs : Config) : AppConfig :=
  {| config_class := cls; config_attrs := attrs |}.

(** The first lines of [app.py]: import [config], then
    [app.config.from_object(get_config())]. *)
Definition startup (env : environ) : result AppConfig :=
  match Config_body env with
  | Raise e => Raise e
  | Ok attrs => Ok (from_object (get_config env) attrs)
  end.

(** [default_limits] and the two route limits handed to flask-limiter. *)
Definition default_limits (c : AppConfig) : list pystr :=
  [ (DEFAULT_RATE_LIMIT_DAY (config_attrs c) ++ codepoints " per day")%list;
    (DEFAULT_RATE_LIMIT_HOUR (config_attrs c) ++ codepoints " per hour")%list ].

Definition login_limit (c : AppConfig) : pystr := LOGIN_RATE_LIMIT (config_attrs c).
Definition register_limit (c : AppConfig) : pystr := REGISTER_RATE_LIMIT (config_attrs c).
End Configuration.

(** ** The [User] model and the store

    Modelled from the spec: [models.py] ([db] and [User]) is imported by
    [app.py] and [forms.py] but is not among the sources.  Following the
    spec, a user record has an identifier, a username, an email and a
    password hash; the password is never stored as given but hashed with a
    per-record salt; verification goes through the hash; username and email
    are kept unique by constraints of the persistence layer, so that a
    commit that would break them fails with a duplicate error and changes
    nothing. *)
Record User : Type := {
  id : Z;
  username : pystr;
  email : pystr;
  password_hash : pystr
}.

#[global] Instance User_eq_dec : EqDecision User.
Proof. solve_decision. Defined.

Definition set_username (v : pystr) (u : User) : User :=
  {| id := id u; username := v; email := email u; password_hash := password_hash u |}.
Definition set_email (v : pystr) (u : User) : User :=
  {| id := id u; username := username u; email := v; password_hash := password_hash u |}.
Definition set_password_hash (v : pystr) (u : User) : User :=
  {| id := id u; username := username u; email := email u; password_hash := v |}.

(** Modelled from the spec: the uniqueness constraints of the table. *)
Definition table_unique (t : list User) : bool :=
  bool_decide (NoDup (id <$> t))
  && bool_decide (NoDup (username <$> t))
  && bool_decide (NoDup (email <$> t)).

(** The key the store gives a new row. *)
Definition next_id (t : list User) : Z := (1 + foldr Z.max 0 (id <$> t))%Z.

(** [User.query.get(k)], [User.query.filter_by(email=e).first()] and
    [User.query.filter_by(username=n).first()]. *)
Definition query_get (t : list User) (k : Z) : option User :=
  find (fun u => bool_decide (id u = k)) t.
Definition query_by_email (t : list User) (e : pystr) : option User :=
  find (fun u => bool_decide (email u = e)) t.
Definition query_by_username (t : list User) (n : pystr) : option User :=
  find (fun u => bool_decide (username u = n)) t.

(** ** Requests, responses and the state a handler works on *)

Inductive Method : Type := GET | POST.

(** The text fields of a submitted form (a browser sends an empty text
    field as the empty string) and the check box. *)
Record FormData : Type := {
  username_data : pystr;
  email_data : pystr;
  password_data : pystr;
  confirm_password_data : pystr;
  remember_data : bool
}.

Record Request : Type := {
  method : Method;
  args_next : option pystr;       (* request.args.get('next') *)
  form : FormData
}.

Inductive Response : Type :=
| Redirect (location : pystr)
| Render (template : string) (errors : list (string * list string)).

(** What a handler does besides changing the state. *)
Inductive Event : Type :=
| EvLoadUser (user_id : pystr)
| EvValidate (form_name : string)
| EvQueryByEmail (e : pystr)
| EvCheckPassword (user : Z)
| EvLoginUser (user : Z)
| EvLogoutUser
| EvAdd (user : User)
| EvCommit.

Record World : Type := {
  users : list User;                    (* the committed table *)
  session_user_id : option pystr;       (* session['_user_id'] *)
  session_remember : bool;              (* session['_remember'] is set *)
  flashes : list (string * string);     (* all (category, message) flashed *)
  rng : N;                              (* source of salts *)
  trace : list Event                    (* oldest first *)
}.

Definition with_users (t : list User) (w : World) : World :=
  {| users := t; session_user_id := session_user_id w;
     session_remember := session_remember w; flashes := flashes w;
     rng := rng w; trace := trace w |}.
Definition with_session (s : option pystr) (r : bool) (w : World) : World :=
  {| users := users w; session_user_id := s; session_remember := r;
     flashes := flashes w; rng := rng w; trace := trace w |}.
Definition with_flashes (f : list (string * string)) (w : World) : World :=
  {| users := users w; session_user_id := session_user_id w;
     session_remember := session_remember w; flashes := f;
     rng := rng w; trace := trace w |}.
Definition with_rng (n : N) (w : World) : World :=
  {| users := users w; session_user_id := session_user_id w;
     session_remember := session_remember w; flashes := flashes w;
     rng := n; trace := trace w |}.
Definition with_trace (t : list Event) (w : World) : World :=
  {| users := users w; session_user_id := session_user_id w;
     session_remember := session_remember w; flashes := flashes w;
     rng := rng w; trace := t |}.

(** A handler: a state transformer that returns or raises. *)
Definition App (A : Type) : Type := World -> result A * World.

Definition ret {A} (a : A) : App A := fun w => (Ok a, w).
Definition raise {A} (e : exn) : App A := fun w => (Raise e, w).
Definition bind {A B} (m : App A) (k : A -> App B) : App B :=
  fun w => match m w with
           | (Ok a, w') => k a w'
           | (Raise e, w') => (Raise e, w')
           end.

Declare Scope app_scope.
Delimit Scope app_scope with app.
Notation "x <- m ;; k" := (bind m (fun x => k))
  (at level 100, m at next level, right associativity) : app_scope.
Notation "m ;; k" := (bind m (fun _ => k))
  (at level 100, right associativity) : app_scope.
Local Open Scope app_scope.

Definition gets {A} (f : World -> A) : App A := fun w => (Ok (f w), w).
Definition modify (f : World -> World) : App unit := fun w => (Ok tt, f w).
Definition lift {A} (r : result A) : App A := fun w => (r, w).

Definition log (e : Event) : App unit :=
  modify (fun w => with_trace (trace w ++ [e]) w).

(** [flash(message, category)] *)
Definition flash (message category : string) : App unit :=
  modify (fun w => with_flashes (flashes w ++ [(category, message)]) w).

(** [redirect(location)], [url_for(endpoint)] for the routes of [app.py]
    and [render_template]. *)
Definition redirect (location : pystr) : Response := Redirect location.

Definition url_for (endpoint : string) : pystr :=
  if String.eqb endpoint "index" then codepoints "/"
  else codepoints ("/" ++ endpoint).

Definition render_template (template : string)
    (errors : list (string * list string)) : Response :=
  Render template errors.

(** ** [forms.py]: validators and forms *)

(** What one validator call does: return, raise [ValidationError] (the
    message is recorded and the chain goes on) or raise [StopValidation]
    (the message is recorded and the chain ends). *)
Inductive Outcome : Type :=
| Passed
| Invalid (message : string)
| Stopped (message : string).

(** wtforms' [Field._run_validation_chain]: the messages collected. *)
Fixpoint run_validation_chain (chain : list Outcome) : list string :=
  match chain with
  | [] => []
  | Passed :: r => run_validation_chain r
  | Invalid m :: r => m :: run_validation_chain r
  | Stopped m :: _ => [m]
  end.

(** [form.errors]: the fields that have messages, in field order. *)
Definition collect_errors (fields : list (string * list string))
    : list (string * list string) :=
  filter (fun f => snd f <> []) fields.

Definition msg_required : string := "This field is required.".
Definition msg_length_2_20 : string :=
  "Field must be between 2 and 20 characters long.".
Definition msg_email : string := "Invalid email address.".
Definition msg_equal_password : string := "Field must be equal to password.".
Definition msg_username_taken : string :=
  "That username is already taken. Please choose a different one.".
Definition msg_email_taken : string :=
  "That email is already registered. Please choose a different one.".

Section Forms.
Context `{!Externals}.

(** [DataRequired()]: the data is non-empty and not only white space. *)
Definition DataRequired (data : pystr) : Outcome :=
  if bool_decide (data <> []) && bool_decide (strip data <> [])
  then Passed else Stopped msg_required.

(** [Length(min=2, max=20)] *)
Definition Length_2_20 (data : pystr) : Outcome :=
  let n := N.of_nat (length data) in
  if (2 <=? n) && (n <=? 20) then Passed else Invalid msg_length_2_20.

(** [Email()] *)
Definition Email (data : pystr) : Outcome :=
  if email_syntax_ok data then Passed else Invalid msg_email.

(** [EqualTo('password')] *)
Definition EqualTo (data other : pystr) : Outcome :=
  if bool_decide (data = other) then Passed else Invalid msg_equal_password.

(** [PasswordValidator()] as a member of a chain. *)
Definition PasswordValidator (data : pystr) : Outcome :=
  match PasswordValidator_call data with
  | None => Passed
  | Some m => Invalid m
  end.

(** [RegistrationForm.validate_username] and [validate_email] *)
Definition validate_username (t : list User) (data : pystr) : Outcome :=
  match query_by_username t data with
  | Some _ => Invalid msg_username_taken
  | None => Passed
  end.

Definition validate_email (t : list User) (data : pystr) : Outcome :=
  match query_by_email t data with
  | Some _ => Invalid msg_email_taken
  | None => Passed
  end.

(** [RegistrationForm]: the messages of each field. *)
Definition RegistrationForm_errors (t : list User) (f : FormData)
    : list (string * list string) :=
  collect_errors
    [ ("username",
        run_validation_chain
          [DataRequired (username_data f); Length_2_20 (username_data f);
           validate_username t (username_data f)]);
      ("email",
        run_validation_chain
          [DataRequired (email_data f); Email (email_data f);
           validate_email t (email_data f)]);
      ("password",
        run_validation_chain
          [DataRequired (password_data f); PasswordValidator (password_data f)]);
      ("confirm_password",
        run_validation_chain
          [DataRequired (confirm_password_data f);
           EqualTo (confirm_password_data f) (password_data f)]) ].

(** [LoginForm] *)
Definition LoginForm_errors (f : FormData) : list (string * list string) :=
  collect_errors
    [ ("email",
        run_validation_chain [DataRequired (email_data f); Email (email_data f)]);
      ("password", run_validation_chain [DataRequired (password_data f)]) ].

(** [ProfileForm] *)
Definition ProfileForm_errors (f : FormData) : list (string * list string) :=
  collect_errors
    [ ("username",
        run_validation_chain
          [DataRequired (username_data f); Length_2_20 (username_data f)]);
      ("email",
        run_validation_chain [DataRequired (email_data f); Email (email_data f)]);
      ("password", run_validation_chain [PasswordValidator (password_data f)]);
      ("confirm_password",
        run_validation_chain
          [EqualTo (confirm_password_data f) (password_data f)]) ].

(** [form.validate_on_submit()]: a GET is not a submission and validates
    nothing; a POST runs the validators of every field.  The result is
    the success flag and [form.errors]. *)
Definition validate_on_submit (name : string) (req : Request)
    (errors : list (string * list string))
    : App (bool * list (string * list string)) :=
  match method req with
  | GET => ret (false, [])
  | POST =>
      log (EvValidate name) ;;
      ret (bool_decide (errors = []), errors)
  end.
End Forms.

(** ** [app.py]: the session and the route handlers *)

Definition msg_login_ok : string := "Login successful!".
Definition msg_login_failed : string :=
  "Login unsuccessful. Please check email and password.".
Definition msg_account_created : string :=
  "Your account has been created! You can now log in.".
Definition msg_logged_out : string := "You have been logged out.".
Definition msg_profile_updated : string := "Your profile has been updated!".
Definition msg_please_log_in : string := "Please log in to access this page.".

Section Handlers.
Context `{!Externals}.

(** [load_user(user_id)]: [User.query.get(int(user_id))] *)
Definition load_user (user_id : pystr) : App (option User) :=
  k <- lift (py_int user_id) ;;
  t <- gets users ;;
  ret (query_get t k).

(** flask-login's [current_user]: the user the callback [load_user]
    returns for the identifier kept in the session; [None] stands for
    the anonymous user. *)
Definition current_user : App (option User) :=
  s <- gets session_user_id ;;
  match s with
  | None => ret None
  | Some user_id => log (EvLoadUser user_id) ;; load_user user_id
  end.

(** The state after flask-login asked [load_user] for the session's user. *)
Definition loaded (sid : pystr) (w : World) : World :=
  with_trace (trace w ++ [EvLoadUser sid]) w.

(** [current_user.is_authenticated] *)
Definition is_authenticated (u : option User) : bool :=
  match u with Some _ => true | None => false end.

(** Modelled from the spec: [User.check_password(raw)] verifies against
    the stored hash. *)
Definition check_password (u : User) (raw : pystr) : App bool :=
  log (EvCheckPassword (id u)) ;;
  ret (check_password_hash (password_hash u) raw).

(** Modelled from the spec: a password is stored as a salted hash. *)
Definition hash_password (raw : pystr) : App pystr :=
  salt <- gets rng ;;
  modify (with_rng (salt + 1)) ;;
  ret (generate_password_hash salt raw).

(** flask-login's [login_user(user, remember=...)]: the session keeps
    [user.get_id()], the identifier printed as text. *)
Definition login_user (u : User) (remember : bool) : App unit :=
  log (EvLoginUser (id u)) ;;
  modify (with_session (Some (py_str_of_int (id u))) remember).

(** flask-login's [logout_user()] *)
Definition logout_user : App unit :=
  log EvLogoutUser ;;
  modify (with_session None false).

(** Modelled from the spec: [db.session.commit()] of the table as the
    handler changed it.  The constraints are checked by the store; on
    a violation nothing is written. *)
Definition db_session_commit (t : list User) : App unit :=
  log EvCommit ;;
  if table_unique t then modify (with_users t)
  else raise (IntegrityError "UNIQUE constraint failed").

(** [@login_required]: the anonymous user is sent to the login view with
    the requested path as [next]. *)
Definition login_required (path : string) (view : User -> App Response)
    : App Response :=
  cu <- current_user ;;
  match cu with
  | Some u => view u
  | None =>
      flash msg_please_log_in "info" ;;
      ret (redirect (url_for "login" ++ codepoints "?next=%2F" ++ codepoints path)%list)
  end.

(** [index] *)
Definition index (req : Request) : App Response :=
  ret (render_template "index.html" []).

(** [login] *)
Definition login (req : Request) : App Response :=
  cu <- current_user ;;
  if is_authenticated cu then ret (redirect (url_for "dashboard"))
  else
    v <- validate_on_submit "LoginForm" req (LoginForm_errors (form req)) ;;
    if fst v then
      log (EvQueryByEmail (email_data (form req))) ;;
      t <- gets users ;;
      match query_by_email t (email_data (form req)) with
      | Some user =>
          ok <- check_password user (password_data (form req)) ;;
          if ok then
            login_user user (remember_data (form req)) ;;
            let next_page := args_next req in
            flash msg_login_ok "success" ;;
            ret (redirect
                   match next_page with
                   | Some (c :: n) => c :: n
                   | _ => url_for "dashboard"
                   end)
          else
            flash msg_login_failed "danger" ;;
            ret (render_template "login.html" (snd v))
      | None =>
          flash msg_login_failed "danger" ;;
          ret (render_template "login.html" (snd v))
      end
    else ret (render_template "login.html" (snd v)).

(** [register] *)
Definition register (req : Request) : App Response :=
  cu <- current_user ;;
  if is_authenticated cu then ret (redirect (url_for "dashboard"))
  else
    t <- gets users ;;
    v <- validate_on_submit "RegistrationForm" req
           (RegistrationForm_errors t (form req)) ;;
    if fst v then
      h <- hash_password (password_data (form req)) ;;
      let user := {| id := next_id t;
                     username := username_data (form req);
                     email := email_data (form req);
                     password_hash := h |} in
      log (EvAdd user) ;;
      db_session_commit (t ++ [user]) ;;
      flash msg_account_created "success" ;;
      ret (redirect (url_for "login"))
    else ret (render_template "register.html" (snd v)).

(** [logout] *)
Definition logout (req : Request) : App Response :=
  login_required "logout" (fun _ =>
    logout_user ;;
    flash msg_logged_out "info" ;;
    ret (redirect (url_for "index"))).

(** [dashboard] *)
Definition dashboard (req : Request) : App Response :=
  login_required "dashboard" (fun _ => ret (render_template "dashboard.html" [])).

(** The row of the current user with the attributes the handler set. *)
Definition replace_row (u' : User) (t : list User) : list User :=
  (fun u => if bool_decide (id u = id u') then u' else u) <$> t.

(** [profile] *)
Definition profile (req : Request) : App Response :=
  login_required "profile" (fun cu =>
    v <- validate_on_submit "ProfileForm" req (ProfileForm_errors (form req)) ;;
    if fst v then
      let cu1 := set_username (username_data (form req)) cu in
      let cu2 := set_email (email_data (form req)) cu1 in
      cu3 <- match password_data (form req) with
             | [] => ret cu2
             | raw =>
                 h <- hash_password raw ;;
                 ret (set_password_hash h cu2)
             end ;;
      t <- gets users ;;
      db_session_commit (replace_row cu3 t) ;;
      flash msg_profile_updated "success" ;;
      ret (redirect (url_for "profile"))
    else ret (render_template "profile.html" (snd v))).

(** The routes and a run of requests.  A request whose handler raises is
    answered with an error page and leaves the state the handler had
    reached. *)
Inductive Route : Type :=
| RIndex | RLogin | RRegister | RLogout | RDashboard | RProfile.

Definition handler (r : Route) : Request -> App Response :=
  match r with
  | RIndex => index
  | RLogin => login
  | RRegister => register
  | RLogout => logout
  | RDashboard => dashboard
  | RProfile => profile
  end.

(** The session travels in a cookie: each browser keeps the session the
    last response gave it, and a request is served on the store with
    the session of the browser that sends it. *)
Record Server : Type := {
  state : World;
  jar : gmap N (option pystr * bool)
}.

Definition serve (srv : Server) (v : N * Route * Request) : Server :=
  let cookie := default (None, false) (jar srv !! v.1.1) in
  let w := snd (handler v.1.2 v.2 (with_session cookie.1 cookie.2 (state srv))) in
  {| state := w;
     jar := <[ v.1.1 := (session_user_id w, session_remember w) ]> (jar srv) |}.

Definition serve_all (srv : Server) (vs : list (N * Route * Request)) : Server :=
  fold_left serve vs srv.
End Handlers.

(** The state of a fresh deployment: an empty table, no session. *)
Definition initial_world : World :=
  {| users := []; session_user_id := None; session_remember := false;
     flashes := []; rng := 0; trace := [] |}.

Definition initial_server : Server := {| state := initial_world; jar := ∅ |}.

(** ** Notions the properties are stated with *)

(** The rules of the password policy in the order the spec lists them. *)
Inductive Rule : Type :=
| RuleLength | RuleUppercase | RuleLowercase | RuleDigit | RuleSpecial.

Definition rule_rank (r : Rule) : nat :=
  match r with
  | RuleLength => 0 | RuleUppercase => 1 | RuleLowercase => 2
  | RuleDigit => 3 | RuleSpecial => 4
  end%nat.

Definition rule_message (r : Rule) : string :=
  match r with
  | RuleLength => msg_length
  | RuleUppercase => msg_uppercase
  | RuleLowercase => msg_lowercase
  | RuleDigit => msg_number
  | RuleSpecial => msg_special
  end.

Section Policy.
Context `{!Externals}.

(** The policy with its minimum length as a parameter, as the spec
    words it. *)
Definition rule_holds (min_length : Z) (r : Rule) (password : pystr) : bool :=
  match r with
  | RuleLength => (min_length <=? Z.of_nat (length password))%Z
  | RuleUppercase => any isupper password
  | RuleLowercase => any islower password
  | RuleDigit => any isdigit password
  | RuleSpecial => re_search_special password
  end.

Definition policy (min_length : Z) (password : pystr) : bool :=
  rule_holds min_length RuleLength password
  && rule_holds min_length RuleUppercase password
  && rule_holds min_length RuleLowercase password
  && rule_holds min_length RuleDigit password
  && rule_holds min_length RuleSpecial password.

(** The stored names and emails are ones a form accepted. *)
Definition row_ok (u : User) : Prop :=
  DataRequired (username u) = Passed /\ DataRequired (email u) = Passed.

Definition table_ok (t : list User) : Prop :=
  table_unique t = true /\ Forall row_ok t.
End Policy.

(** A session identifier that is the printed form of an integer, the only
    kind [login_user] writes. *)
Definition printed_session (s : option pystr) : Prop :=
  match s with
  | None => True
  | Some sid => exists k : Z, sid = py_str_of_int k
  end.

(** A redirect target is local when it is a path of the application: it
    starts with one slash and names no scheme and no host. *)
Definition is_local_url (target : pystr) : bool :=
  match target with
  | 47 :: 47 :: _ => false
  | 47 :: 92 :: _ => false
  | 47 :: _ => true
  | _ => false
  end.

(** ** An instance to run the model on concrete requests

    No character outside ASCII is classified, an address is accepted
    when it has an [@] between two non-empty parts, and the hash keeps
    salt and password apart by a [$].  The properties below are proved for
    every instance; this one only serves to evaluate the handlers. *)
Definition toy_email_ok (s : pystr) : bool :=
  match s with
  | [] => false
  | c :: r =>
      negb (c =? 64) && existsb (N.eqb 64) r
      && negb (List.last r 64 =? 64)
  end.

Definition toy_hash (salt : N) (raw : pystr) : pystr := salt :: 36 :: raw.

Definition toy_check (h raw : pystr) : bool :=
  match h with
  | _ :: 36 :: r => bool_decide (r = raw)
  | _ => false
  end.

Definition toy_externals : Externals :=
  {| unicode_isupper := fun _ => false;
     unicode_islower := fun _ => false;
     unicode_isdigit := fun _ => false;
     unicode_isspace := fun _ => false;
     unicode_decimal := fun _ => None;
     email_syntax_ok := toy_email_ok;
     generate_password_hash := toy_hash;
     check_password_hash := toy_check |}.

(** Two stored users and a few requests to run the handlers on. *)
Definition alice : User :=
  {| id := 1;
     username := codepoints "alice";
     email := codepoints "alice@example.com";
     password_hash := toy_hash 0 (codepoints "Abcdefghijk1!") |}.

Definition bob : User :=
  {| id := 2;
     username := codepoints "bob";
     email := codepoints "bob@example.com";
     password_hash := toy_hash 1 (codepoints "Zyxwvutsrqp9#") |}.

Definition demo_world (session : option pystr) : World :=
  {| users := [alice; bob]; session_user_id := session; session_remember := false;
     flashes := []; rng := 2; trace := [] |}.

Definition demo_form (name mail password confirm : string) : FormData :=
  {| username_data := codepoints name;
     email_data := codepoints mail;
     password_data := codepoints password;
     confirm_password_data := codepoints confirm;
     remember_data := false |}.

Definition post (next : option string) (f : FormData) : Request :=
  {| method := POST; args_next := option_map codepoints next; form := f |}.

Definition no_form : FormData := demo_form "" "" "" "".

Definition anonymous_world : World := demo_world None.
Definition alice_world : World := demo_world (Some (codepoints "1")).
Definition alice_world_loaded : World := loaded (codepoints "1") alice_world.
Definition stale_world : World := demo_world (Some (py_str_of_int 7)).

Definition good_password : string := "Abcdefghijk1!".

Definition login_alice (next : option string) : Request :=
  post next (demo_form "" "alice@example.com" good_password "").
Definition login_alice_wrong : Request :=
  post None (demo_form "" "alice@example.com" "wrong" "").
Definition login_nobody : Request :=
  post None (demo_form "" "nobody@example.com" "wrong" "").
Definition register_carol : Request :=
  post None (demo_form "carol" "carol@example.com" good_password good_password).
Definition register_alice_again : Request :=
  post None (demo_form "alice" "alice2@example.com" good_password good_password).
Definition rename_blank_password : Request :=
  post None (demo_form "alice2" "alice@example.com" "" "").
Definition rename_to_bob : Request :=
  post None (demo_form "bob" "alice@example.com" good_password good_password).

(** One browser registers Carol, a second one tries to register her
    again, the first logs in and asks for the name of the second. *)
Definition demo_run : list (N * Route * Request) :=
  [ (0, RRegister, register_carol);
    (1, RRegister, register_carol);
    (0, RLogin, post None (demo_form "" "carol@example.com" good_password ""));
    (0, RProfile, post None (demo_form "carol" "carol@example.com" "" "")) ].

(** The environments of the two start-up scenarios. *)
Definition env_min_length_8 : environ :=
  {[ "MIN_PASSWORD_LENGTH" := codepoints "8" ]}.

Definition env_production_default_key : environ :=
  {[ "FLASK_ENV" := codepoints "production";
     "SECRET_KEY" := codepoints dev_key ]}.

Definition env_production_no_key : environ :=
  {[ "FLASK_ENV" := codepoints "production" ]}.

(** ** [str.split], [str.join] and [str.upper] *)

(** [s.split(sep)] for a one-character separator: the pieces between the
    separators, always at least one. *)
Fixpoint split_on (sep : N) (s : pystr) : list pystr :=
  match s with
  | [] => [[]]
  | c :: r =>
      if c =? sep then [] :: split_on sep r
      else match split_on sep r with
           | p :: ps => (c :: p) :: ps
           | [] => [[c]]
           end
  end.

(** [sep.join(pieces)] *)
Fixpoint join_with (sep : N) (pieces : list pystr) : pystr :=
  match pieces with
  | [] => []
  | [p] => p
  | p :: ps => (p ++ sep :: join_with sep ps)%list
  end.

Section Upper.
(** The upper-case mapping of the characters outside ASCII; one character
    can map to several. *)
Variable unicode_upper : N -> pystr.

(** [s.upper()] *)
Definition upper (s : pystr) : pystr :=
  flat_map (fun c => if c <? 128
                     then [if in_range 97 122 c then c - 32 else c]
                     else unicode_upper c) s.

(** [os.getenv(key, default).upper() == 'TRUE'] *)
Definition env_flag (env : environ) (key default : string) : bool :=
  bool_decide (upper (getenv_default env key default) = codepoints "TRUE").

(** Class attribute [FORCE_HTTPS] of the two subclasses. *)
Definition FORCE_HTTPS (cls : ConfigClass) (env : environ) : bool :=
  match cls with
  | DevelopmentConfig => env_flag env "FORCE_HTTPS" "FALSE"
  | ProductionConfig => true
  end.

End Upper.

(** ** [config.py]: CORS settings and the content security policy *)

Definition ALLOWED_ORIGINS (env : environ) : pystr :=
  getenv_default env "ALLOWED_ORIGINS" "*".

Definition ALLOWED_METHODS (env : environ) : list pystr :=
  split_on 44 (getenv_default env "ALLOWED_METHODS" "GET,POST,OPTIONS").

(** The dictionary [Config.CSP].  Each directive tests
    [os.getenv('FLASK_ENV') == 'development'], without a default. *)
Definition csp_development (env : environ) : bool :=
  bool_decide (getenv env "FLASK_ENV" = Some (codepoints "development")).

Definition CSP (env : environ) : list (string * list string) :=
  let dev := csp_development env in
  [ ("default-src",
      if dev then ["'self'"; "*"; "data:"]
      else ["'self'"; "cdn.jsdelivr.net"; "cdn.tailwindcss.com"; "unpkg.com";
            "fonts.googleapis.com"; "fonts.gstatic.com"]);
    ("script-src",
      if dev then ["'self'"; "'unsafe-inline'"; "'unsafe-eval'"; "*"]
      else ["'self'"; "cdn.jsdelivr.net"; "cdn.tailwindcss.com"; "unpkg.com";
            "'unsafe-inline'"; "'unsafe-eval'"]);
    ("style-src",
      if dev then ["'self'"; "'unsafe-inline'"; "*"]
      else ["'self'"; "cdn.jsdelivr.net"; "fonts.googleapis.com"; "unpkg.com";
            "'unsafe-inline'"]);
    ("img-src",
      if dev then ["'self'"; "data:"; "blob:"; "*"]
      else ["'self'"; "data:"; "blob:"; "cdn.jsdelivr.net"]);
    ("font-src",
      if dev then ["'self'"; "*"; "data:"]
      else ["'self'"; "cdn.jsdelivr.net"; "fonts.gstatic.com";
            "fonts.googleapis.com"]);
    ("connect-src",
      if dev then ["'self'"; "*"]
      else ["'self'"; "cdn.jsdelivr.net"; "cdn.tailwindcss.com"]) ].

(** ** [app.py]: security headers and CORS at start-up *)

(** The arguments of the [Talisman(...)] call that come from the
    configuration. *)
Record TalismanArgs : Type := {
  content_security_policy : list (string * list string);
  force_https : bool;
  session_cookie_secure : bool;
  session_cookie_http_only : bool;
  frame_options : string
}.

Section Security.
Context `{!Externals}.
Variable unicode_upper : N -> pystr.

(** [init_security_for_production()]: [None] when Talisman is not set up,
    because the environment is not production or because the package
    cannot be imported.  [app.config] has no key [SECURE_COOKIES] (no
    configuration class defines it), so [session_cookie_secure] is the
    default of the [get]. *)
Definition init_security_for_production (talisman_importable : bool)
    (env : environ) (c : AppConfig) : option TalismanArgs :=
  if bool_decide (FLASK_ENV (config_attrs c) = codepoints "production") then
    if talisman_importable then
      Some {| content_security_policy := CSP env;
              force_https := FORCE_HTTPS unicode_upper (config_class c) env;
              session_cookie_secure := true;
              session_cookie_http_only := true;
              frame_options := "DENY" |}
    else None
  else None.

(** The module-level guard around it:
    [if app.config.get('FLASK_ENV') != 'development': ...] *)
Definition security_at_startup (talisman_importable : bool)
    (env : environ) (c : AppConfig) : option TalismanArgs :=
  if bool_decide (FLASK_ENV (config_attrs c) <> codepoints "development")
  then init_security_for_production talisman_importable env c
  else None.
End Security.

(** The [origins] handed to [CORS]: the wild card, or the pieces of the
    setting between commas, each stripped. *)
Inductive Origins : Type :=
| AnyOrigin
| OriginList (origins : list pystr).

Section Cors.
Context `{!Externals}.

Definition cors_origins (allowed_origins : pystr) : Origins :=
  if bool_decide (allowed_origins <> codepoints "*")
  then OriginList (strip <$> split_on 44 allowed_origins)
  else AnyOrigin.
End Cors.

(** More requests, states and environments to run the code on. *)
Definition rename_with_password : Request :=
  post None (demo_form "alice2" "alice2@example.com" good_password good_password).
Definition login_blank_password : Request :=
  post None (demo_form "" "alice@example.com" "" "").
Definition login_carol : Request :=
  post None (demo_form "" "carol@example.com" good_password "").
Definition register_dave : Request :=
  post None (demo_form "dave" "dave@example.com" good_password good_password).
Definition rename_to_dave : Request :=
  post None (demo_form "dave" "carol@example.com" good_password good_password).

(** Carol and Dave register from two browsers and Carol logs in. *)
Definition two_users_run : list (N * Route * Request) :=
  [ (0, RRegister, register_carol);
    (1, RRegister, register_dave);
    (0, RLogin, login_carol) ].

(** A session whose identifier is not a number. *)
Definition garbled_world : World := demo_world (Some (codepoints "abc")).

Definition env_two_methods : environ :=
  {[ "ALLOWED_METHODS" := codepoints "GET,PUT" ]}.

Definition env_two_origins : environ :=
  {[ "ALLOWED_ORIGINS" := codepoints "https://a.example , https://b.example" ]}.

(** The upper-case mapping that leaves the characters outside ASCII alone. *)
Definition toy_upper (c : N) : pystr := [c].

(** * Properties *)

(** ** Characters and integers *)

Section CharacterFacts.
Context `{!Externals}.

Lemma any_true (pred : N -> bool) (s : pystr) :
  any pred s = true <-> exists c, c ∈ s /\ pred c = true.
Proof.
  unfold any. rewrite existsb_exists.
  split; intros [c [Hin Hc]]; exists c; split; auto;
    by apply list_elem_of_In.
Qed.

Lemma lstrip_id (s : pystr) :
  match s with c :: _ => isspace c = false | [] => True end -> lstrip s = s.
Proof. destruct s as [|c r]; simpl; [done|]. by intros ->. Qed.

Lemma strip_id (s : pystr) :
  Forall (fun c => isspace c = false) s -> strip s = s.
Proof.
  intros Hs. unfold strip, rstrip.
  rewrite (lstrip_id s).
  - rewrite lstrip_id; [apply rev_involutive|].
    assert (Hr : Forall (fun c => isspace c = false) (rev s))
      by (by apply Forall_rev).
    destruct (rev s); [done|]. by inversion Hr.
  - destruct s; [done|]. by inversion Hs.
Qed.

Lemma digits_not_space (u : uint) :
  Forall (fun c => isspace c = false) (digits_of_uint u).
Proof. induction u; simpl; constructor; auto. Qed.

Lemma uint_of_digits_of_uint (u : uint) :
  uint_of_digits (digits_of_uint u) = Some u.
Proof. induction u; simpl; [done|..]; by rewrite IHu. Qed.

Lemma drop_underscores_digits (u : uint) (b : bool) :
  u <> Nil \/ b = true ->
  drop_underscores b (digits_of_uint u) = Some (digits_of_uint u).
Proof.
  revert b. induction u; intros b Hb; simpl.
  { destruct Hb as [Hb | ->]; [done | reflexivity]. }
  all: rewrite IHu; [reflexivity | by right].
Qed.

Lemma nat_literal_digits (u : uint) :
  u <> Nil -> nat_literal (digits_of_uint u) = Some (N.of_uint u).
Proof.
  intros Hu. unfold nat_literal.
  rewrite drop_underscores_digits by (by left).
  by rewrite uint_of_digits_of_uint.
Qed.

Lemma py_int_digits (u : uint) :
  u <> Nil -> py_int (digits_of_uint u) = Ok (Z.of_N (N.of_uint u)).
Proof.
  intros Hu. unfold py_int.
  rewrite (strip_id _ (digits_not_space u)).
  pose proof (nat_literal_digits u Hu) as Hn.
  destruct u; [done|..]; simpl in *; by rewrite Hn.
Qed.

(** [int(str(k)) == k] for every integer [k]. *)
Lemma py_int_str (k : Z) : py_int (py_str_of_int k) = Ok k.
Proof.
  destruct k as [|p|p]; simpl.
  - reflexivity.
  - rewrite py_int_digits by apply DecimalPos.Unsigned.to_uint_nonnil.
    unfold N.of_uint. by rewrite DecimalPos.Unsigned.of_to.
  - unfold py_int.
    assert (Hs : Forall (fun c => isspace c = false)
                   (45 :: digits_of_uint (Pos.to_uint p)))
      by (constructor; [reflexivity | apply digits_not_space]).
    rewrite (strip_id _ Hs).
    rewrite nat_literal_digits by apply DecimalPos.Unsigned.to_uint_nonnil.
    unfold N.of_uint. by rewrite DecimalPos.Unsigned.of_to.
Qed.
End CharacterFacts.

(** ** The password policy *)

Section PolicyFacts.
Context `{!Externals}.

(** The validator is the policy with the minimum length 12. *)
Lemma accepts_policy_12 (password : pystr) :
  accepts password = policy 12 password.
Proof.
  unfold accepts, PasswordValidator_call, policy, rule_holds.
  replace (12 <=? Z.of_nat (length password))%Z
    with (negb (N.of_nat (length password) <? 12)).
  2:{ destruct (N.ltb_spec (N.of_nat (length password)) 12);
      destruct (Z.leb_spec 12 (Z.of_nat (length password))); simpl; lia. }
  destruct (N.of_nat (length password) <? 12); simpl; [done|].
  destruct (any isupper password); simpl; [|done].
  destruct (any islower password); simpl; [|done].
  destruct (any isdigit password); simpl; [|done].
  by destruct (re_search_special password).
Qed.

(** What acceptance means, written out. *)
Lemma accepts_iff (password : pystr) :
  accepts password = true <->
  (12 <= length password)%nat
  /\ (exists c, c ∈ password /\ isupper c = true)
  /\ (exists c, c ∈ password /\ islower c = true)
  /\ (exists c, c ∈ password /\ isdigit c = true)
  /\ (exists c, c ∈ password /\ c ∈ special_characters).
Proof.
  rewrite accepts_policy_12. unfold policy, rule_holds.
  rewrite !andb_true_iff, !any_true, Z.leb_le.
  unfold re_search_special. rewrite existsb_exists.
  assert (Hsp : forall c, is_special c = true <-> c ∈ special_characters).
  { intros c. unfold is_special. rewrite existsb_exists. split.
    - intros [x [Hin Hx]]. apply N.eqb_eq in Hx as ->. by apply list_elem_of_In.
    - intros Hin. exists c. split; [by apply list_elem_of_In | apply N.eqb_refl]. }
  split.
  - intros [[[[Hl Hu] Hlo] Hd] [c [Hin Hc]]].
    repeat split; auto; [lia|].
    exists c. split; [by apply list_elem_of_In | by apply Hsp].
  - intros (Hl & Hu & Hlo & Hd & c & Hin & Hc).
    repeat split; auto; [lia|].
    exists c. split; [by apply list_elem_of_In | by apply Hsp].
Qed.

(** The minimum length of the validator does not come from the
    configuration. *)
Lemma accepts_ignores_config (env : environ) (c : Config) (password : pystr) :
  Config_body env = Ok c ->
  accepts password = true -> (12 <= length password)%nat.
Proof. intros _ Ha. by apply accepts_iff in Ha as [Hl _]. Qed.

(** C1. The claim: the validator accepts a password if and only if its
    length is at least the configured [MIN_PASSWORD_LENGTH] and it has an
    uppercase letter, a lowercase letter, a digit and a special character.
    The code at a configured minimum of 8: the environment sets
    [MIN_PASSWORD_LENGTH] to 8, [Config.MIN_PASSWORD_LENGTH] is 8, the
    password [Abcdef1!] meets the policy for that minimum, and the
    validator refuses it for its length. *)
Theorem C1_configured_minimum_not_used :
  (exists c, Config_body env_min_length_8 = Ok c
             /\ MIN_PASSWORD_LENGTH c = 8%Z
             /\ policy (MIN_PASSWORD_LENGTH c) (codepoints "Abcdef1!") = true)
  /\ PasswordValidator_call (codepoints "Abcdef1!") = Some msg_length
  /\ accepts (codepoints "Abcdef1!") = false.
Proof.
  split; [|split; reflexivity].
  eexists. split; [vm_compute; reflexivity|]. split; reflexivity.
Qed.

Lemma rule_message_inj (r1 r2 : Rule) :
  rule_message r1 = rule_message r2 -> r1 = r2.
Proof. destruct r1, r2; simpl; intros Hm; try reflexivity; discriminate Hm. Qed.

(** C8. For every rejected password the validator raises one message:
    that of the first rule, in the order length, uppercase, lowercase,
    digit, special, that the password fails; the five messages are
    pairwise distinct. *)
Theorem C8_first_failing_rule (password : pystr) (m : string) :
  PasswordValidator_call password = Some m ->
  (exists r : Rule,
      m = rule_message r
      /\ rule_holds 12 r password = false
      /\ (forall r' : Rule, (rule_rank r' < rule_rank r)%nat ->
                            rule_holds 12 r' password = true))
  /\ (forall r1 r2 : Rule, rule_message r1 = rule_message r2 -> r1 = r2).
Proof.
  intros Hcall. split; [|apply rule_message_inj].
  unfold PasswordValidator_call in Hcall.
  assert (Hlen : (12 <=? Z.of_nat (length password))%Z
                 = negb (N.of_nat (length password) <? 12)).
  { destruct (N.ltb_spec (N.of_nat (length password)) 12);
      destruct (Z.leb_spec 12 (Z.of_nat (length password))); simpl; lia. }
  destruct (N.of_nat (length password) <? 12) eqn:H1; simpl in Hlen.
  { exists RuleLength. inversion Hcall. simpl.
    repeat split; auto. intros r' Hr'. simpl in Hr'. lia. }
  destruct (any isupper password) eqn:H2; simpl in Hcall.
  2:{ exists RuleUppercase. inversion Hcall. repeat split; auto.
      intros [] Hr'; simpl in Hr'; try lia; simpl; auto. }
  destruct (any islower password) eqn:H3; simpl in Hcall.
  2:{ exists RuleLowercase. inversion Hcall. repeat split; auto.
      intros [] Hr'; simpl in Hr'; try lia; simpl; auto. }
  destruct (any isdigit password) eqn:H4; simpl in Hcall.
  2:{ exists RuleDigit. inversion Hcall. repeat split; auto.
      intros [] Hr'; simpl in Hr'; try lia; simpl; auto. }
  destruct (re_search_special password) eqn:H5; simpl in Hcall; [discriminate|].
  exists RuleSpecial. inversion Hcall. repeat split; auto.
  intros [] Hr'; simpl in Hr'; try lia; simpl; auto.
Qed.
End PolicyFacts.

(** ** Start-up *)

Section StartupFacts.
Context `{!Externals}.

(** The only way the start-up fails is an integer setting that [int]
    cannot read. *)
Lemma startup_raises (env : environ) (e : exn) :
  startup env = Raise e -> e = invalid_literal.
Proof.
  unfold startup, Config_body, py_int.
  repeat (case_match; try congruence).
Qed.

(** The start-up never consults [ProductionConfig.__init__]: with the
    integer settings left alone it succeeds, and the application holds
    the class [get_config] chose and the secret key of class [Config]. *)
Lemma startup_ok (env : environ) :
  env !! "MIN_PASSWORD_LENGTH" = None ->
  env !! "PASSWORD_HASH_ITERATIONS" = None ->
  exists c, startup env = Ok c
            /\ config_class c = get_config env
            /\ SECRET_KEY (config_attrs c) = getenv_default env "SECRET_KEY" dev_key.
Proof.
  intros Hm Hi. unfold startup, Config_body, getenv_default.
  rewrite Hm, Hi.
  replace (py_int (codepoints "12")) with (Ok 12%Z) by reflexivity.
  replace (py_int (codepoints "150000")) with (Ok 150000%Z) by reflexivity.
  eexists. split; [reflexivity|]. split; reflexivity.
Qed.

(** C2. The claim: with [FLASK_ENV] set to [production] and the secret
    key equal to the development default, the start-up fails with a
    configuration error.  The code at that environment: the guard of
    [ProductionConfig.__init__] would raise, but [get_config] returns the
    class and [from_object] reads its attributes without instantiating
    it, so the start-up succeeds with the development key. *)
Theorem C2_production_starts_with_default_key :
  ProductionConfig_init env_production_default_key
    = Raise (ValueError "SECRET_KEY must be set to a secure value in production!")
  /\ get_config env_production_default_key = ProductionConfig
  /\ exists c, startup env_production_default_key = Ok c
               /\ config_class c = ProductionConfig
               /\ FLASK_ENV (config_attrs c) = codepoints "production"
               /\ SECRET_KEY (config_attrs c) = codepoints dev_key.
Proof.
  split; [reflexivity|]. split; [reflexivity|].
  eexists. split; [vm_compute; reflexivity|].
  split; [reflexivity|]. split; reflexivity.
Qed.

(** The same with the key left unset: [Config.SECRET_KEY] falls back to
    the development key, the guard would not even fire, and the start-up
    succeeds. *)
Lemma production_starts_with_unset_key :
  ProductionConfig_init env_production_no_key = Ok tt
  /\ exists c, startup env_production_no_key = Ok c
               /\ config_class c = ProductionConfig
               /\ SECRET_KEY (config_attrs c) = codepoints dev_key.
Proof.
  split; [reflexivity|].
  eexists. split; [vm_compute; reflexivity|]. split; reflexivity.
Qed.
End StartupFacts.

(** ** The session *)

Ltac run_app :=
  unfold bind, ret, raise, gets, modify, lift, log, flash in *; simpl in *.

Section SessionFacts.
Context `{!Externals}.

Lemma bind_eq {A B} (m : App A) (k : A -> App B) (w : World) :
  bind m k w = match m w with
               | (Ok a, w') => k a w'
               | (Raise e, w') => (Raise e, w')
               end.
Proof. reflexivity. Qed.

Lemma load_user_eq (sid : pystr) (w : World) :
  load_user sid w =
  match py_int sid with
  | Ok k => (Ok (query_get (users w) k), w)
  | Raise e => (Raise e, w)
  end.
Proof. unfold load_user. run_app. by destruct (py_int sid). Qed.

Lemma current_user_eq (w : World) :
  current_user w =
  match session_user_id w with
  | None => (Ok None, w)
  | Some sid =>
      match py_int sid with
      | Ok k => (Ok (query_get (users w) k), loaded sid w)
      | Raise e => (Raise e, loaded sid w)
      end
  end.
Proof.
  unfold current_user, load_user. run_app.
  destruct (session_user_id w) as [sid|]; [|done].
  by destruct (py_int sid).
Qed.

(** Resolving the current user reads the store and the session and
    changes neither. *)
Lemma current_user_frame (w w1 : World) (r : result (option User)) :
  current_user w = (r, w1) ->
  users w1 = users w /\ session_user_id w1 = session_user_id w
  /\ session_remember w1 = session_remember w
  /\ flashes w1 = flashes w /\ rng w1 = rng w
  /\ (w1 = w \/ exists sid, session_user_id w = Some sid /\ w1 = loaded sid w).
Proof.
  rewrite current_user_eq.
  destruct (session_user_id w) as [sid|] eqn:Hs.
  - destruct (py_int sid); intros [= <- <-]; simpl; rewrite ?Hs;
      repeat split; auto; right; eauto.
  - intros [= <- <-]. rewrite Hs. repeat split; auto.
Qed.

Lemma current_user_some (w w1 : World) (u : User) :
  current_user w = (Ok (Some u), w1) ->
  exists sid k, session_user_id w = Some sid /\ py_int sid = Ok k
                /\ query_get (users w) k = Some u /\ w1 = loaded sid w.
Proof.
  rewrite current_user_eq.
  destruct (session_user_id w) as [sid|]; [|discriminate].
  destruct (py_int sid) as [k|e] eqn:Hk; [|discriminate].
  intros [= Hq <-]. by exists sid, k.
Qed.

Lemma query_get_elem (t : list User) (k : Z) (u : User) :
  query_get t k = Some u -> u ∈ t /\ id u = k.
Proof.
  unfold query_get. intros Hf. apply find_some in Hf as [Hin Hb].
  split; [by apply list_elem_of_In | by apply bool_decide_eq_true in Hb].
Qed.

(** C9. When the identifier kept in the session is that of no stored
    user, [load_user] returns no user and does not raise, the current
    user is the anonymous one, and a protected page answers with the
    redirect to the login view instead of failing. *)
Theorem C9_missing_user_is_anonymous (w : World) (k : Z) (req : Request) :
  session_user_id w = Some (py_str_of_int k) ->
  query_get (users w) k = None ->
  load_user (py_str_of_int k) w = (Ok None, w)
  /\ fst (current_user w) = Ok None
  /\ is_authenticated None = false
  /\ fst (dashboard req w)
     = Ok (Redirect (codepoints "/login?next=%2Fdashboard"))
  /\ users (snd (dashboard req w)) = users w.
Proof.
  intros Hs Hq.
  assert (Hcu : current_user w = (Ok None, loaded (py_str_of_int k) w))
    by (by rewrite current_user_eq, Hs, py_int_str, Hq).
  split; [by rewrite load_user_eq, py_int_str, Hq|].
  split; [by rewrite Hcu|]. split; [reflexivity|].
  unfold dashboard, login_required. rewrite bind_eq, Hcu.
  split; reflexivity.
Qed.

(** C10. A request to [/login] or [/register] by a user who is already
    authenticated is answered with the redirect to [/dashboard]; apart
    from resolving the session's user, the handler does nothing: no form
    is validated, no user is looked up, added or changed, no session is
    created and nothing is flashed. *)
Theorem C10_authenticated_redirect
    (w w1 : World) (u : User) (req : Request) :
  current_user w = (Ok (Some u), w1) ->
  login req w = (Ok (Redirect (codepoints "/dashboard")), w1)
  /\ register req w = (Ok (Redirect (codepoints "/dashboard")), w1)
  /\ users w1 = users w
  /\ session_user_id w1 = session_user_id w
  /\ session_remember w1 = session_remember w
  /\ flashes w1 = flashes w
  /\ exists sid, session_user_id w = Some sid
                 /\ trace w1 = (trace w ++ [EvLoadUser sid])%list.
Proof.
  intros Hcu.
  split; [unfold login; by rewrite bind_eq, Hcu|].
  split; [unfold register; by rewrite bind_eq, Hcu|].
  destruct (current_user_frame _ _ _ Hcu) as (Hu & Hs & Hr & Hf & _ & _).
  repeat (split; [assumption|]).
  destruct (current_user_some _ _ _ Hcu) as (sid & k & Hsid & _ & _ & ->).
  by exists sid.
Qed.
End SessionFacts.

(** ** The login handler *)

Section LoginFacts.
Context `{!Externals}.

(** A valid submission by an anonymous client whose email and password
    verify: the session is set and the redirect goes to the [next]
    argument when there is a non-empty one, to the dashboard otherwise. *)
Lemma login_success (w w1 : World) (req : Request) (user : User) :
  current_user w = (Ok None, w1) ->
  method req = POST ->
  LoginForm_errors (form req) = [] ->
  query_by_email (users w) (email_data (form req)) = Some user ->
  check_password_hash (password_hash user) (password_data (form req)) = true ->
  fst (login req w)
    = Ok (Redirect match args_next req with
                   | Some (c :: n) => c :: n
                   | _ => codepoints "/dashboard"
                   end)
  /\ session_user_id (snd (login req w)) = Some (py_str_of_int (id user))
  /\ flashes (snd (login req w)) = (flashes w ++ [("success", msg_login_ok)])%list
  /\ users (snd (login req w)) = users w.
Proof.
  intros Hcu Hm He Hq Hc.
  destruct (current_user_frame _ _ _ Hcu) as (Hu & Hs & Hr & Hf & _ & _).
  unfold login. rewrite bind_eq, Hcu. simpl.
  unfold validate_on_submit. rewrite Hm, He. run_app.
  rewrite Hu, Hq. unfold check_password, login_user. run_app. rewrite Hc.
  simpl. rewrite Hf, Hu. repeat split; reflexivity.
Qed.

(** A valid submission by an anonymous client that fails, for either
    reason: the login page again, one flashed message, no session. *)
Lemma login_failure (w w1 : World) (req : Request) :
  current_user w = (Ok None, w1) ->
  method req = POST ->
  LoginForm_errors (form req) = [] ->
  match query_by_email (users w) (email_data (form req)) with
  | Some user =>
      check_password_hash (password_hash user) (password_data (form req)) = false
  | None => True
  end ->
  fst (login req w) = Ok (Render "login.html" [])
  /\ flashes (snd (login req w)) = (flashes w ++ [("danger", msg_login_failed)])%list
  /\ session_user_id (snd (login req w)) = session_user_id w
  /\ users (snd (login req w)) = users w.
Proof.
  intros Hcu Hm He Hq.
  destruct (current_user_frame _ _ _ Hcu) as (Hu & Hs & Hr & Hf & _ & _).
  unfold login. rewrite bind_eq, Hcu. simpl.
  unfold validate_on_submit. rewrite Hm, He. run_app.
  rewrite Hu.
  destruct (query_by_email (users w) (email_data (form req))) as [user|].
  - unfold check_password. run_app. rewrite Hq. simpl.
    rewrite Hf, Hs, Hu. repeat split; reflexivity.
  - simpl. rewrite Hf, Hs, Hu. repeat split; reflexivity.
Qed.

(** A request that is not a valid submission: the login page, with the
    messages of the form when it was posted, and nothing else. *)
Lemma login_not_valid (w w1 : World) (req : Request) :
  current_user w = (Ok None, w1) ->
  method req = GET \/ LoginForm_errors (form req) <> [] ->
  fst (login req w)
    = Ok (Render "login.html"
            match method req with
            | GET => []
            | POST => LoginForm_errors (form req)
            end)
  /\ flashes (snd (login req w)) = flashes w
  /\ session_user_id (snd (login req w)) = session_user_id w
  /\ users (snd (login req w)) = users w.
Proof.
  intros Hcu Hnv.
  destruct (current_user_frame _ _ _ Hcu) as (Hu & Hs & Hr & Hf & _ & _).
  unfold login. rewrite bind_eq, Hcu. simpl.
  unfold validate_on_submit.
  destruct (method req) eqn:Hm; run_app; [by repeat split|].
  destruct Hnv as [Hget | Hne]; [discriminate|].
  rewrite bool_decide_eq_false_2 by exact Hne. simpl. by repeat split.
Qed.

(** What a failed login shows does not depend on the store: the same
    request on two tables, failing on both for whatever reason, gets the
    same page and the same flashed messages. *)
Lemma failed_login_independent_of_store
    (w w1 w' w1' : World) (req : Request) :
  current_user w = (Ok None, w1) ->
  current_user w' = (Ok None, w1') ->
  flashes w = flashes w' ->
  match query_by_email (users w) (email_data (form req)) with
  | Some user =>
      check_password_hash (password_hash user) (password_data (form req)) = false
  | None => True
  end ->
  match query_by_email (users w') (email_data (form req)) with
  | Some user =>
      check_password_hash (password_hash user) (password_data (form req)) = false
  | None => True
  end ->
  fst (login req w) = fst (login req w')
  /\ flashes (snd (login req w)) = flashes (snd (login req w')).
Proof.
  intros Hcu Hcu' Hfl Hq Hq'.
  assert (Hcases : (method req = POST /\ LoginForm_errors (form req) = [])
                   \/ (method req = GET \/ LoginForm_errors (form req) <> [])).
  { destruct (method req); [right; by left|].
    destruct (decide (LoginForm_errors (form req) = [])); [by left|].
    right. by right. }
  destruct Hcases as [[Hm He] | Hnv].
  - destruct (login_failure w w1 req Hcu Hm He Hq) as (-> & -> & _).
    destruct (login_failure w' w1' req Hcu' Hm He Hq') as (-> & -> & _).
    by rewrite Hfl.
  - destruct (login_not_valid w w1 req Hcu Hnv) as (-> & -> & _).
    destruct (login_not_valid w' w1' req Hcu' Hnv) as (-> & -> & _).
    by rewrite Hfl.
Qed.

(** C5. Two failed logins by anonymous clients, one with a registered
    email and a wrong password and one with an email that is not
    registered: both are answered with the same page, the same single
    flashed message of the same category, and neither sets a session. *)
Theorem C5_failed_logins_indistinguishable
    (w w1 : World) (r1 r2 : Request) (user : User) :
  current_user w = (Ok None, w1) ->
  method r1 = POST -> method r2 = POST ->
  LoginForm_errors (form r1) = [] -> LoginForm_errors (form r2) = [] ->
  query_by_email (users w) (email_data (form r1)) = Some user ->
  check_password_hash (password_hash user) (password_data (form r1)) = false ->
  query_by_email (users w) (email_data (form r2)) = None ->
  fst (login r1 w) = fst (login r2 w)
  /\ fst (login r1 w) = Ok (Render "login.html" [])
  /\ flashes (snd (login r1 w)) = flashes (snd (login r2 w))
  /\ flashes (snd (login r1 w))
     = (flashes w ++ [("danger", msg_login_failed)])%list
  /\ session_user_id (snd (login r1 w)) = session_user_id w
  /\ session_user_id (snd (login r2 w)) = session_user_id w.
Proof.
  intros Hcu Hm1 Hm2 He1 He2 Hq1 Hc1 Hq2.
  destruct (login_failure w w1 r1 Hcu Hm1 He1) as (Ha1 & Hb1 & Hc1' & _);
    [by rewrite Hq1|].
  destruct (login_failure w w1 r2 Hcu Hm2 He2) as (Ha2 & Hb2 & Hc2' & _);
    [by rewrite Hq2|].
  rewrite Ha1, Ha2, Hb1, Hb2. repeat split; assumption.
Qed.

(** C4, as the code has it. A successful login redirects to the [next]
    argument of the request whenever it is present and not empty,
    whatever it names, and to [/dashboard] when it is absent or empty. *)
Theorem C4_login_redirects_to_next
    (w w1 : World) (req : Request) (user : User) :
  current_user w = (Ok None, w1) ->
  method req = POST ->
  LoginForm_errors (form req) = [] ->
  query_by_email (users w) (email_data (form req)) = Some user ->
  check_password_hash (password_hash user) (password_data (form req)) = true ->
  fst (login req w)
    = Ok (Redirect match args_next req with
                   | Some (c :: n) => c :: n
                   | _ => codepoints "/dashboard"
                   end).
Proof. intros Hcu Hm He Hq Hc. by destruct (login_success w w1 req user). Qed.
End LoginFacts.

(** ** The store under [register] and [profile] *)

Section StoreFacts.
Context `{!Externals}.

Lemma commit_eq (t : list User) (w : World) :
  db_session_commit t w =
  if table_unique t
  then (Ok tt, with_users t (with_trace (trace w ++ [EvCommit]) w))
  else (Raise (IntegrityError "UNIQUE constraint failed"),
        with_trace (trace w ++ [EvCommit]) w).
Proof. unfold db_session_commit. run_app. by destruct (table_unique t). Qed.

(** What [profile] can do to the table: nothing, or replace the row of
    the current user by one with the submitted name and email, and then
    only when the form validated and the constraints hold. *)
Lemma profile_users (w : World) (req : Request) :
  users (snd (profile req w)) = users w
  \/ exists (cu cu' : User) (k : Z),
       fst (current_user w) = Ok (Some cu)
       /\ query_get (users w) k = Some cu
       /\ method req = POST
       /\ ProfileForm_errors (form req) = []
       /\ id cu' = id cu
       /\ username cu' = username_data (form req)
       /\ email cu' = email_data (form req)
       /\ table_unique (replace_row cu' (users w)) = true
       /\ users (snd (profile req w)) = replace_row cu' (users w)
       /\ fst (profile req w) = Ok (Redirect (codepoints "/profile")).
Proof.
  unfold profile, login_required. rewrite bind_eq.
  destruct (current_user w) as [[[cu|]|e] w1] eqn:Hcu;
    destruct (current_user_frame _ _ _ Hcu) as (Hu & _).
  2,3: by left.
  assert (Hfst : fst (current_user w) = Ok (Some cu)) by (by rewrite Hcu).
  apply current_user_some in Hcu as (sid & k & _ & _ & Hq & _).
  unfold validate_on_submit.
  destruct (method req) eqn:Hm; [by left|].
  run_app.
  destruct (bool_decide (ProfileForm_errors (form req) = [])) eqn:He;
    simpl; [|by left].
  apply bool_decide_eq_true in He.
  destruct (password_data (form req)) as [|c raw] eqn:Hp.
  - simpl. rewrite commit_eq, Hu.
    destruct (table_unique _) eqn:Ht; simpl; [|by left].
    right.
    exists cu, (set_email (email_data (form req))
                  (set_username (username_data (form req)) cu)), k.
    repeat split; auto.
  - unfold hash_password. run_app. rewrite commit_eq. simpl. rewrite Hu.
    destruct (table_unique _) eqn:Ht; simpl; [|by left].
    right.
    exists cu, (set_password_hash (generate_password_hash (rng w1) (c :: raw))
                  (set_email (email_data (form req))
                     (set_username (username_data (form req)) cu))), k.
    repeat split; auto.
Qed.

(** What [register] can do to the table: nothing, or append one row with
    the submitted name and email, and then only when the form validated
    against the table and the constraints hold. *)
Lemma register_users (w : World) (req : Request) :
  users (snd (register req w)) = users w
  \/ exists u : User,
       method req = POST
       /\ RegistrationForm_errors (users w) (form req) = []
       /\ username u = username_data (form req)
       /\ email u = email_data (form req)
       /\ table_unique (users w ++ [u]) = true
       /\ users (snd (register req w)) = (users w ++ [u])%list
       /\ fst (register req w) = Ok (Redirect (codepoints "/login")).
Proof.
  unfold register. rewrite bind_eq.
  destruct (current_user w) as [[[cu|]|e] w1] eqn:Hcu;
    destruct (current_user_frame _ _ _ Hcu) as (Hu & _).
  1,3: by left.
  simpl. unfold validate_on_submit. run_app. rewrite Hu.
  destruct (method req) eqn:Hm; [by left|]. simpl.
  destruct (bool_decide (RegistrationForm_errors (users w) (form req) = []))
    eqn:He; simpl; [|by left].
  apply bool_decide_eq_true in He.
  unfold hash_password. run_app. rewrite commit_eq. simpl.
  destruct (table_unique _) eqn:Ht; simpl; [|by left].
  right.
  exists {| id := next_id (users w);
            username := username_data (form req);
            email := email_data (form req);
            password_hash :=
              generate_password_hash (rng w1) (password_data (form req)) |}.
  repeat split; auto.
Qed.

Lemma login_users (w : World) (req : Request) :
  users (snd (login req w)) = users w.
Proof.
  unfold login. rewrite bind_eq.
  destruct (current_user w) as [[[cu|]|e] w1] eqn:Hcu;
    destruct (current_user_frame _ _ _ Hcu) as (Hu & _); simpl; auto.
  unfold validate_on_submit. run_app.
  destruct (method req); simpl; auto.
  destruct (bool_decide _); simpl; auto.
  destruct (query_by_email _ _); simpl; auto.
  unfold check_password. run_app.
  destruct (check_password_hash _ _); simpl; auto.
Qed.

Lemma logout_users (w : World) (req : Request) :
  users (snd (logout req w)) = users w.
Proof.
  unfold logout, login_required. rewrite bind_eq.
  destruct (current_user w) as [[[cu|]|e] w1] eqn:Hcu;
    destruct (current_user_frame _ _ _ Hcu) as (Hu & _); simpl; auto.
Qed.

Lemma dashboard_users (w : World) (req : Request) :
  users (snd (dashboard req w)) = users w.
Proof.
  unfold dashboard, login_required. rewrite bind_eq.
  destruct (current_user w) as [[[cu|]|e] w1] eqn:Hcu;
    destruct (current_user_frame _ _ _ Hcu) as (Hu & _); simpl; auto.
Qed.
End StoreFacts.

(** ** Validation chains *)

Section FormFacts.
Context `{!Externals}.

Lemma chain_nil (o : Outcome) (rest : list Outcome) :
  run_validation_chain (o :: rest) = [] ->
  o = Passed /\ run_validation_chain rest = [].
Proof. destruct o; simpl; [auto | discriminate | discriminate]. Qed.

Lemma collect_errors_nil (fields : list (string * list string)) :
  collect_errors fields = [] -> Forall (fun f => snd f = []) fields.
Proof.
  unfold collect_errors. induction fields as [|f fields IH]; [constructor|].
  rewrite filter_cons. case_decide as Hf; [discriminate|].
  intros Hnil. constructor; [|by apply IH].
  by destruct (decide (f.2 = [])).
Qed.

Lemma RegistrationForm_valid (t : list User) (f : FormData) :
  RegistrationForm_errors t f = [] ->
  DataRequired (username_data f) = Passed
  /\ DataRequired (email_data f) = Passed
  /\ query_by_username t (username_data f) = None
  /\ query_by_email t (email_data f) = None
  /\ accepts (password_data f) = true.
Proof.
  intros He. apply collect_errors_nil in He.
  rewrite !Forall_cons in He. cbn [snd] in He.
  destruct He as (H1 & H2 & H3 & H4 & _).
  repeat match goal with
         | Hc : run_validation_chain (_ :: _) = [] |- _ =>
             apply chain_nil in Hc as [? ?]
         end.
  repeat split; auto.
  - unfold validate_username in *.
    destruct (query_by_username t (username_data f)); congruence.
  - unfold validate_email in *.
    destruct (query_by_email t (email_data f)); congruence.
  - unfold PasswordValidator, accepts in *.
    destruct (PasswordValidator_call (password_data f)); congruence.
Qed.

Lemma ProfileForm_valid (f : FormData) :
  ProfileForm_errors f = [] ->
  DataRequired (username_data f) = Passed
  /\ DataRequired (email_data f) = Passed
  /\ accepts (password_data f) = true.
Proof.
  intros He. apply collect_errors_nil in He.
  rewrite !Forall_cons in He. cbn [snd] in He.
  destruct He as (H1 & H2 & H3 & H4 & _).
  repeat match goal with
         | Hc : run_validation_chain (_ :: _) = [] |- _ =>
             apply chain_nil in Hc as [? ?]
         end.
  repeat split; auto.
  unfold PasswordValidator, accepts in *.
  destruct (PasswordValidator_call (password_data f)); congruence.
Qed.

(** The profile form puts the empty password through the password
    policy, and the policy refuses it for its length. *)
Lemma ProfileForm_blank_password (f : FormData) :
  password_data f = [] ->
  ("password", [msg_length]) ∈ ProfileForm_errors f
  /\ ProfileForm_errors f <> [].
Proof.
  intros Hp.
  assert (Hin : ("password", [msg_length]) ∈ ProfileForm_errors f).
  { unfold ProfileForm_errors, collect_errors.
    apply list_elem_of_filter. split; [done|].
    rewrite Hp. simpl. set_solver. }
  split; [exact Hin|]. intros Hnil. rewrite Hnil in Hin. set_solver.
Qed.

Lemma query_by_username_some (t : list User) (u : User) :
  u ∈ t -> exists u', query_by_username t (username u) = Some u'.
Proof.
  intros Hin. unfold query_by_username.
  destruct (find _ t) as [u'|] eqn:Hf; [eauto|].
  apply list_elem_of_In in Hin.
  pose proof (find_none _ _ Hf u Hin) as Hb. simpl in Hb.
  by rewrite bool_decide_eq_false in Hb.
Qed.

Lemma query_by_email_some (t : list User) (u : User) :
  u ∈ t -> exists u', query_by_email t (email u) = Some u'.
Proof.
  intros Hin. unfold query_by_email.
  destruct (find _ t) as [u'|] eqn:Hf; [eauto|].
  apply list_elem_of_In in Hin.
  pose proof (find_none _ _ Hf u Hin) as Hb. simpl in Hb.
  by rewrite bool_decide_eq_false in Hb.
Qed.
End FormFacts.

(** ** Profile updates and the uniqueness of names and emails *)

Section ProfileFacts.
Context `{!Externals}.

(** C3. The claim: a profile update with an empty password field
    validates without the password policy, succeeds, updates name and
    email and leaves the hash alone.  The code on every such submission
    by a logged-in user: [ProfileForm] runs [PasswordValidator] on the
    empty string, the form does not validate, the profile page is shown
    again with the length message on the password field, nothing is
    flashed and no row of the table changes, so name and email are not
    updated. *)
Theorem C3_blank_password_update_rejected
    (w w1 : World) (cu : User) (req : Request) :
  current_user w = (Ok (Some cu), w1) ->
  method req = POST ->
  password_data (form req) = [] ->
  fst (profile req w) = Ok (Render "profile.html" (ProfileForm_errors (form req)))
  /\ ("password", [msg_length]) ∈ ProfileForm_errors (form req)
  /\ users (snd (profile req w)) = users w
  /\ flashes (snd (profile req w)) = flashes w.
Proof.
  intros Hcu Hm Hp.
  destruct (current_user_frame _ _ _ Hcu) as (Hu & _ & _ & Hf & _).
  destruct (ProfileForm_blank_password (form req) Hp) as [Hin Hne].
  unfold profile, login_required. rewrite bind_eq, Hcu.
  unfold validate_on_submit. rewrite Hm. run_app.
  rewrite bool_decide_eq_false_2 by exact Hne. simpl.
  repeat split; auto.
Qed.

Lemma table_unique_true (t : list User) :
  table_unique t = true <->
  NoDup (id <$> t) /\ NoDup (username <$> t) /\ NoDup (email <$> t).
Proof.
  unfold table_unique. rewrite !andb_true_iff, !bool_decide_eq_true. tauto.
Qed.

(** Unique columns: two rows with the same name or the same email are
    the same row. *)
Lemma table_unique_rows (t : list User) (i j : nat) (u1 u2 : User) :
  table_unique t = true ->
  t !! i = Some u1 -> t !! j = Some u2 ->
  username u1 = username u2 \/ email u1 = email u2 -> i = j.
Proof.
  rewrite table_unique_true. intros (_ & Hn & He) H1 H2 [Heq | Heq].
  - apply (NoDup_lookup _ i j (username u1) Hn);
      rewrite list_lookup_fmap; [by rewrite H1 | by rewrite H2, Heq].
  - apply (NoDup_lookup _ i j (email u1) He);
      rewrite list_lookup_fmap; [by rewrite H1 | by rewrite H2, Heq].
Qed.

Lemma replace_row_lookup (u' : User) (t : list User) (i : nat) (u : User) :
  t !! i = Some u ->
  replace_row u' t !! i = Some (if bool_decide (id u = id u') then u' else u).
Proof. intros Hi. unfold replace_row. by rewrite list_lookup_fmap, Hi. Qed.

(** Giving the row of one user the name or the email of another row
    breaks the constraints. *)
Lemma replace_row_collision (t : list User) (cu cu' other : User) :
  cu ∈ t -> other ∈ t -> id cu' = id cu -> id other <> id cu ->
  username other = username cu' \/ email other = email cu' ->
  table_unique (replace_row cu' t) = false.
Proof.
  intros Hcu Ho Hid Hne Heq.
  destruct (table_unique (replace_row cu' t)) eqn:Ht; [|reflexivity].
  exfalso.
  apply list_elem_of_lookup in Hcu as [i Hi].
  apply list_elem_of_lookup in Ho as [j Hj].
  pose proof (replace_row_lookup cu' t i cu Hi) as Hi'.
  pose proof (replace_row_lookup cu' t j other Hj) as Hj'.
  rewrite bool_decide_eq_true_2 in Hi' by congruence.
  rewrite bool_decide_eq_false_2 in Hj' by congruence.
  assert (j = i) as ->.
  { apply (table_unique_rows _ j i other cu' Ht Hj' Hi' Heq). }
  congruence.
Qed.

Lemma replace_row_ok (t : list User) (u' : User) :
  Forall row_ok t -> row_ok u' -> Forall row_ok (replace_row u' t).
Proof.
  intros Ht Hu. unfold replace_row. apply Forall_fmap.
  eapply Forall_impl; [exact Ht|]. intros u Hr. simpl.
  by case_bool_decide.
Qed.

Lemma register_table_ok (w : World) (req : Request) :
  table_ok (users w) -> table_ok (users (snd (register req w))).
Proof.
  intros [Hun Hrows].
  destruct (register_users w req)
    as [-> | (u & _ & He & Hn & Hm & Ht & -> & _)]; [by split|].
  apply RegistrationForm_valid in He as (Hdn & Hde & _).
  split; [exact Ht|]. apply Forall_app. split; [exact Hrows|].
  constructor; [|constructor]. unfold row_ok. by rewrite Hn, Hm.
Qed.

Lemma profile_table_ok (w : World) (req : Request) :
  table_ok (users w) -> table_ok (users (snd (profile req w))).
Proof.
  intros [Hun Hrows].
  destruct (profile_users w req)
    as [-> | (cu & cu' & k & _ & _ & _ & He & _ & Hn & Hm & Ht & -> & _)];
    [by split|].
  apply ProfileForm_valid in He as (Hdn & Hde & _).
  split; [exact Ht|]. apply replace_row_ok; [exact Hrows|].
  unfold row_ok. by rewrite Hn, Hm.
Qed.

Lemma handler_table_ok (r : Route) (req : Request) (w : World) :
  table_ok (users w) -> table_ok (users (snd (handler r req w))).
Proof.
  destruct r; simpl.
  - auto.
  - by rewrite login_users.
  - apply register_table_ok.
  - by rewrite logout_users.
  - by rewrite dashboard_users.
  - apply profile_table_ok.
Qed.

Lemma serve_table_ok (srv : Server) (v : N * Route * Request) :
  table_ok (users (state srv)) -> table_ok (users (state (serve srv v))).
Proof. intros Hok. unfold serve. simpl. by apply handler_table_ok. Qed.

Lemma serve_all_table_ok (vs : list (N * Route * Request)) (srv : Server) :
  table_ok (users (state srv)) ->
  table_ok (users (state (serve_all srv vs))).
Proof.
  revert srv. induction vs as [|v vs IH]; intros srv Hok; simpl; [done|].
  apply IH. by apply serve_table_ok.
Qed.

Lemma initial_table_ok : table_ok (users (state initial_server)).
Proof. split; [reflexivity | constructor]. Qed.
End ProfileFacts.

(** ** Registration and the uniqueness of names and emails *)

Section RegistrationFacts.
Context `{!Externals}.

Lemma registration_username_taken (t : list User) (f : FormData) (u : User) :
  Forall row_ok t -> u ∈ t -> username u = username_data f ->
  exists msgs, ("username", msgs) ∈ RegistrationForm_errors t f
               /\ msg_username_taken ∈ msgs.
Proof.
  intros Hrows Hin Hn.
  assert (Hreq : DataRequired (username_data f) = Passed).
  { rewrite <- Hn. rewrite Forall_forall in Hrows. by apply Hrows. }
  destruct (query_by_username_some t u Hin) as [u' Hq]. rewrite Hn in Hq.
  eexists. split.
  - unfold RegistrationForm_errors, collect_errors.
    apply list_elem_of_filter. split; [|apply list_elem_of_here].
    simpl. rewrite Hreq. unfold validate_username. rewrite Hq.
    destruct (Length_2_20 _); simpl; discriminate.
  - rewrite Hreq. unfold validate_username. rewrite Hq.
    unfold Length_2_20. cbv zeta.
    destruct (_ && _); simpl; set_solver.
Qed.

Lemma registration_email_taken (t : list User) (f : FormData) (u : User) :
  Forall row_ok t -> u ∈ t -> email u = email_data f ->
  exists msgs, ("email", msgs) ∈ RegistrationForm_errors t f
               /\ msg_email_taken ∈ msgs.
Proof.
  intros Hrows Hin Hn.
  assert (Hreq : DataRequired (email_data f) = Passed).
  { rewrite <- Hn. rewrite Forall_forall in Hrows. by apply Hrows. }
  destruct (query_by_email_some t u Hin) as [u' Hq]. rewrite Hn in Hq.
  eexists. split.
  - unfold RegistrationForm_errors, collect_errors.
    apply list_elem_of_filter.
    split; [|apply list_elem_of_further, list_elem_of_here].
    simpl. rewrite Hreq. unfold validate_email. rewrite Hq.
    unfold Email. destruct (email_syntax_ok _); simpl; discriminate.
  - rewrite Hreq. unfold validate_email. rewrite Hq.
    unfold Email. destruct (email_syntax_ok _); simpl; set_solver.
Qed.

(** A submission whose form does not validate stores nothing and shows
    the registration page with the messages. *)
Lemma register_invalid (w w1 : World) (req : Request) :
  current_user w = (Ok None, w1) ->
  method req = POST ->
  RegistrationForm_errors (users w) (form req) <> [] ->
  fst (register req w)
    = Ok (Render "register.html" (RegistrationForm_errors (users w) (form req)))
  /\ users (snd (register req w)) = users w.
Proof.
  intros Hcu Hm Hne.
  destruct (current_user_frame _ _ _ Hcu) as (Hu & _).
  unfold register. rewrite bind_eq, Hcu. simpl.
  unfold validate_on_submit. rewrite Hm. run_app. rewrite Hu.
  rewrite bool_decide_eq_false_2 by exact Hne. simpl. by split.
Qed.

(** C6. (1) After any run of requests on a fresh deployment, two stored
    rows with the same username or the same email are the same row.
    (2) A registration whose username or email is that of a stored user
    is answered with the registration page carrying the duplicate
    message on the colliding field, and stores nothing.  (3) A profile
    update whose username or email is that of another stored user
    changes no row. *)
Theorem C6_unique_username_and_email
    (vs : list (N * Route * Request))
    (w w1 w' w2 : World) (reg upd : Request) (u cu other : User) :
  (forall (i j : nat) (u1 u2 : User),
      users (state (serve_all initial_server vs)) !! i = Some u1 ->
      users (state (serve_all initial_server vs)) !! j = Some u2 ->
      username u1 = username u2 \/ email u1 = email u2 -> i = j)
  /\ (table_ok (users w) ->
      current_user w = (Ok None, w1) -> method reg = POST ->
      u ∈ users w ->
      username u = username_data (form reg) \/ email u = email_data (form reg) ->
      (exists errs,
          fst (register reg w) = Ok (Render "register.html" errs)
          /\ (username u = username_data (form reg) ->
              exists msgs, ("username", msgs) ∈ errs
                           /\ msg_username_taken ∈ msgs)
          /\ (email u = email_data (form reg) ->
              exists msgs, ("email", msgs) ∈ errs /\ msg_email_taken ∈ msgs))
      /\ users (snd (register reg w)) = users w)
  /\ (table_ok (users w') ->
      current_user w' = (Ok (Some cu), w2) ->
      other ∈ users w' -> id other <> id cu ->
      username other = username_data (form upd)
      \/ email other = email_data (form upd) ->
      users (snd (profile upd w')) = users w').
Proof.
  split; [|split].
  - intros i j u1 u2 Hi Hj Heq.
    destruct (serve_all_table_ok vs initial_server initial_table_ok) as [Hun _].
    by apply (table_unique_rows _ i j u1 u2 Hun).
  - intros [Hun Hrows] Hcu Hm Hin Hcol.
    assert (Hne : RegistrationForm_errors (users w) (form reg) <> []).
    { destruct Hcol as [Hn | He].
      - destruct (registration_username_taken _ (form reg) u Hrows Hin Hn)
          as (msgs & Hmem & _).
        intros Hnil. rewrite Hnil in Hmem. set_solver.
      - destruct (registration_email_taken _ (form reg) u Hrows Hin He)
          as (msgs & Hmem & _).
        intros Hnil. rewrite Hnil in Hmem. set_solver. }
    destruct (register_invalid w w1 reg Hcu Hm Hne) as [Hresp Hsame].
    split; [|exact Hsame].
    exists (RegistrationForm_errors (users w) (form reg)).
    split; [exact Hresp|]. split; intros Heq.
    + by apply (registration_username_taken _ _ u).
    + by apply (registration_email_taken _ _ u).
  - intros [Hun Hrows] Hcu Ho Hid Hcol.
    destruct (profile_users w' upd)
      as [Hsame | (cu0 & cu' & k & Hfst & _ & _ & _ & Hid' & Hn & Hm & Ht & _)];
      [exact Hsame|].
    exfalso.
    rewrite Hcu in Hfst. simpl in Hfst. injection Hfst as <-.
    apply current_user_some in Hcu as (sid & k' & _ & _ & Hq' & _).
    apply query_get_elem in Hq' as [Hcuin _].
    assert (Hcol' : username other = username cu' \/ email other = email cu')
      by (rewrite Hn, Hm; exact Hcol).
    rewrite (replace_row_collision (users w') cu cu' other) in Ht; auto.
    discriminate Ht.
Qed.
End RegistrationFacts.

(** ** What the session can hold *)

Section SessionContents.
Context `{!Externals}.

Lemma login_session (w : World) (req : Request) :
  printed_session (session_user_id w) ->
  printed_session (session_user_id (snd (login req w))).
Proof.
  intros Hp. unfold login. rewrite bind_eq.
  destruct (current_user w) as [[[cu|]|e] w1] eqn:Hcu;
    destruct (current_user_frame _ _ _ Hcu) as (_ & Hs & _); simpl;
    rewrite ?Hs; auto.
  unfold validate_on_submit. run_app.
  destruct (method req); simpl; rewrite ?Hs; auto.
  destruct (bool_decide _); simpl; rewrite ?Hs; auto.
  destruct (query_by_email _ _) as [user|]; simpl; rewrite ?Hs; auto.
  unfold check_password, login_user. run_app.
  destruct (check_password_hash _ _); simpl; rewrite ?Hs; auto.
  by exists (id user).
Qed.

Lemma register_session (w : World) (req : Request) :
  session_user_id (snd (register req w)) = session_user_id w.
Proof.
  unfold register. rewrite bind_eq.
  destruct (current_user w) as [[[cu|]|e] w1] eqn:Hcu;
    destruct (current_user_frame _ _ _ Hcu) as (_ & Hs & _); simpl; auto.
  unfold validate_on_submit. run_app.
  destruct (method req); simpl; auto.
  destruct (bool_decide _); simpl; auto.
  unfold hash_password. run_app. rewrite commit_eq. simpl.
  destruct (table_unique _); simpl; auto.
Qed.

Lemma profile_session (w : World) (req : Request) :
  session_user_id (snd (profile req w)) = session_user_id w.
Proof.
  unfold profile, login_required. rewrite bind_eq.
  destruct (current_user w) as [[[cu|]|e] w1] eqn:Hcu;
    destruct (current_user_frame _ _ _ Hcu) as (_ & Hs & _); simpl; auto.
  unfold validate_on_submit. run_app.
  destruct (method req); simpl; auto.
  destruct (bool_decide _); simpl; auto.
  destruct (password_data (form req)); simpl.
  - rewrite commit_eq. simpl. destruct (table_unique _); simpl; auto.
  - unfold hash_password. run_app. rewrite commit_eq. simpl.
    destruct (table_unique _); simpl; auto.
Qed.

Lemma handler_session (r : Route) (req : Request) (w : World) :
  printed_session (session_user_id w) ->
  printed_session (session_user_id (snd (handler r req w))).
Proof.
  intros Hp. destruct r; simpl.
  - exact Hp.
  - by apply login_session.
  - by rewrite register_session.
  - unfold logout, login_required. rewrite bind_eq.
    destruct (current_user w) as [[[cu|]|e] w1] eqn:Hcu;
      destruct (current_user_frame _ _ _ Hcu) as (_ & Hs & _); simpl;
      rewrite ?Hs; auto.
  - unfold dashboard, login_required. rewrite bind_eq.
    destruct (current_user w) as [[[cu|]|e] w1] eqn:Hcu;
      destruct (current_user_frame _ _ _ Hcu) as (_ & Hs & _); simpl;
      rewrite ?Hs; auto.
  - by rewrite profile_session.
Qed.

(** Every session a browser can hold after a run of requests on a fresh
    deployment is empty or names a user by a printed integer, which
    [load_user] can read back. *)
Lemma serve_all_sessions (vs : list (N * Route * Request)) (srv : Server) :
  map_Forall (fun _ c => printed_session (fst c)) (jar srv) ->
  map_Forall (fun _ c => printed_session (fst c)) (jar (serve_all srv vs)).
Proof.
  revert srv. induction vs as [|v vs IH]; intros srv Hjar; simpl; [done|].
  apply IH. unfold serve. simpl.
  apply map_Forall_insert_2; [|exact Hjar]. simpl.
  apply handler_session. simpl.
  destruct (jar srv !! v.1.1) as [c|] eqn:Hc; simpl; [|done].
  by apply (Hjar _ _ Hc).
Qed.

Lemma reachable_sessions (vs : list (N * Route * Request)) (b : N)
    (sid : pystr) (r : bool) :
  jar (serve_all initial_server vs) !! b = Some (Some sid, r) ->
  exists k : Z, sid = py_str_of_int k /\ py_int sid = Ok k.
Proof.
  intros Hb.
  assert (Hall : map_Forall (fun _ c => printed_session (fst c))
                   (jar (serve_all initial_server vs)))
    by (apply serve_all_sessions, map_Forall_empty).
  destruct (Hall _ _ Hb) as [k ->]. exists k. split; [done|apply py_int_str].
Qed.

(** The limits handed to flask-limiter when the environment sets none. *)
Lemma default_rate_limits (env : environ) (c : AppConfig) :
  env !! "DEFAULT_RATE_LIMIT_DAY" = None ->
  env !! "DEFAULT_RATE_LIMIT_HOUR" = None ->
  env !! "LOGIN_RATE_LIMIT" = None ->
  env !! "REGISTER_RATE_LIMIT" = None ->
  startup env = Ok c ->
  default_limits c = [codepoints "200 per day"; codepoints "50 per hour"]
  /\ login_limit c = codepoints "5/minute"
  /\ register_limit c = codepoints "3/hour".
Proof.
  intros Hd Hh Hl Hr. unfold startup, Config_body.
  destruct (py_int _); [|discriminate].
  destruct (py_int _); [|discriminate].
  intros [= <-].
  unfold default_limits, login_limit, register_limit, getenv_default. simpl.
  by rewrite Hd, Hh, Hl, Hr.
Qed.
End SessionContents.

(** * Further properties of the code *)

(** ** The password validator *)

Section ValidatorMore.
Context `{!Externals}.

Lemma call_none_accepts (password : pystr) :
  PasswordValidator_call password = None <-> accepts password = true.
Proof.
  unfold accepts.
  destruct (PasswordValidator_call password); split; intros Hx;
    try reflexivity; discriminate Hx.
Qed.

(** X1. [PasswordValidator.__call__] returns without raising exactly
    when the password has at least 12 characters, a character that
    [isupper], one that [islower], one that [isdigit] and one of the 22
    characters of the regular expression's class. *)
Theorem validator_accepts_exactly (password : pystr) :
  PasswordValidator_call password = None <->
  (12 <= length password)%nat
  /\ (exists c, c ∈ password /\ isupper c = true)
  /\ (exists c, c ∈ password /\ islower c = true)
  /\ (exists c, c ∈ password /\ isdigit c = true)
  /\ (exists c, c ∈ password
                /\ c ∈ [33; 64; 35; 36; 37; 94; 38; 42; 40; 41; 45; 95;
                        61; 43; 123; 125; 59; 58; 44; 60; 46; 62]).
Proof.
  rewrite call_none_accepts, accepts_iff.
  change special_characters
    with [33; 64; 35; 36; 37; 94; 38; 42; 40; 41; 45; 95;
          61; 43; 123; 125; 59; 58; 44; 60; 46; 62].
  reflexivity.
Qed.

Lemma existsb_perm (f : N -> bool) (p q : pystr) :
  p ≡ₚ q -> existsb f p = existsb f q.
Proof.
  intros Hpq. apply eq_true_iff_eq. rewrite !existsb_exists.
  split; intros [c [Hin Hc]]; exists c; split; auto.
  - by apply (Permutation_in _ Hpq).
  - by apply (Permutation_in _ (Permutation_sym Hpq)).
Qed.

(** X2. The verdict of the validator, message included, does not depend
    on the order of the characters. *)
Theorem validator_ignores_order (p q : pystr) :
  p ≡ₚ q -> PasswordValidator_call p = PasswordValidator_call q.
Proof.
  intros Hpq. unfold PasswordValidator_call, any, re_search_special.
  rewrite (Permutation_length Hpq).
  rewrite (existsb_perm isupper p q Hpq), (existsb_perm islower p q Hpq).
  rewrite (existsb_perm isdigit p q Hpq), (existsb_perm is_special p q Hpq).
  reflexivity.
Qed.

(** X3. Adding characters in front of or behind an accepted password
    never makes it rejected. *)
Theorem validator_accepts_extensions (before password behind : pystr) :
  PasswordValidator_call password = None ->
  PasswordValidator_call (before ++ password ++ behind)%list = None.
Proof.
  rewrite !call_none_accepts, !accepts_iff.
  intros (Hlen & Hu & Hl & Hd & Hs).
  split; [rewrite !length_app; lia|].
  repeat split.
  all: match goal with
       | Hc : exists c, c ∈ _ /\ _ |- _ =>
           destruct Hc as (c & Hin & Hc); exists c; split; [|exact Hc];
           rewrite !elem_of_app; auto
       end.
Qed.
End ValidatorMore.

(** ** The configuration *)

Section ConfigMore.
Context `{!Externals}.

Lemma text_of_codepoints (s : string) : text_of (codepoints s) = Some s.
Proof.
  induction s as [|a s IH]; [reflexivity|].
  change (codepoints (String a s)) with (N_of_ascii a :: codepoints s).
  simpl. rewrite IH.
  pose proof (N_ascii_bounded a) as Hb. apply N.ltb_lt in Hb. rewrite Hb.
  simpl. by rewrite ascii_N_embedding.
Qed.

Lemma text_of_inv (key : pystr) (k : string) :
  text_of key = Some k -> key = codepoints k.
Proof.
  revert k. induction key as [|c key IH]; intros k; simpl.
  - by intros [= <-].
  - destruct (c <? 256) eqn:Hc; [|discriminate].
    destruct (text_of key) as [k'|]; [|discriminate].
    intros [= <-].
    change (codepoints (String (ascii_of_N c) k'))
      with (N_of_ascii (ascii_of_N c) :: codepoints k').
    rewrite N_ascii_embedding by (by apply N.ltb_lt).
    by rewrite (IH k').
Qed.

Lemma codepoints_inj (s1 s2 : string) : codepoints s1 = codepoints s2 -> s1 = s2.
Proof.
  intros Heq. pose proof (text_of_codepoints s1) as H1.
  rewrite Heq, text_of_codepoints in H1. by injection H1.
Qed.

Lemma config_get_production (key : pystr) :
  config_get key DevelopmentConfig = ProductionConfig <->
  key = codepoints "production".
Proof.
  unfold config_get. split.
  - destruct (text_of key) as [k|] eqn:Hk; [|discriminate].
    apply text_of_inv in Hk as ->. unfold config.
    destruct (decide (k = "development")) as [->|Hd]; [discriminate|].
    destruct (decide (k = "production")) as [->|Hp]; [reflexivity|].
    destruct (decide (k = "default")) as [->|Hf]; [discriminate|].
    rewrite !lookup_insert_ne, lookup_singleton_ne by done. discriminate.
  - intros ->. reflexivity.
Qed.

Lemma get_config_production (env : environ) :
  get_config env = ProductionConfig <->
  env !! "FLASK_ENV" = Some (codepoints "production").
Proof.
  unfold get_config.
  change (config_get (codepoints "default") DevelopmentConfig)
    with DevelopmentConfig.
  rewrite config_get_production. unfold getenv_default.
  destruct (env !! "FLASK_ENV") as [v|]; split.
  - by intros ->.
  - by intros [= ->].
  - intros Hx. by apply codepoints_inj in Hx.
  - discriminate.
Qed.

(** X4. [get_config()] returns [ProductionConfig] exactly when [FLASK_ENV]
    is set to the text [production]; with the variable unset or set to
    anything else, known or unknown, it returns [DevelopmentConfig]. *)
Theorem get_config_production_iff (env : environ) :
  (get_config env = ProductionConfig <->
   env !! "FLASK_ENV" = Some (codepoints "production"))
  /\ (get_config env = DevelopmentConfig <->
      env !! "FLASK_ENV" <> Some (codepoints "production")).
Proof.
  split; [apply get_config_production|].
  rewrite <- get_config_production.
  destruct (get_config env); split; intros Hx; done.
Qed.

(** X5. No environment variable other than [MIN_PASSWORD_LENGTH] and
    [PASSWORD_HASH_ITERATIONS] decides whether the start-up succeeds:
    setting any other variable to any value leaves a successful start-up
    successful and a failing one failing with the same exception. *)
Theorem startup_other_variables (env : environ) (key : string) (v : pystr) :
  key <> "MIN_PASSWORD_LENGTH" -> key <> "PASSWORD_HASH_ITERATIONS" ->
  match startup env with
  | Ok _ => exists c, startup (<[key := v]> env) = Ok c
  | Raise e => startup (<[key := v]> env) = Raise e
  end.
Proof.
  intros Hm Hi. unfold startup, Config_body, getenv_default.
  rewrite !(lookup_insert_ne env key "MIN_PASSWORD_LENGTH") by done.
  rewrite !(lookup_insert_ne env key "PASSWORD_HASH_ITERATIONS") by done.
  destruct (py_int _) as [a|e]; [|reflexivity].
  destruct (py_int _) as [b|e]; [|reflexivity].
  eexists. reflexivity.
Qed.

(** X6. The guard of [ProductionConfig.__init__] reads [SECRET_KEY]
    without a default: with the variable unset it does not raise, although
    [Config.SECRET_KEY] is then the development key. *)
Theorem production_guard_misses_unset_key (env : environ) (c : Config) :
  env !! "SECRET_KEY" = None ->
  Config_body env = Ok c ->
  ProductionConfig_init env = Ok tt /\ SECRET_KEY c = codepoints dev_key.
Proof.
  intros Hk Hc. split.
  - unfold ProductionConfig_init, getenv. rewrite Hk.
    by rewrite decide_False by discriminate.
  - unfold Config_body in Hc.
    destruct (py_int _); [|discriminate].
    destruct (py_int _); [|discriminate].
    injection Hc as <-. simpl. unfold getenv_default. by rewrite Hk.
Qed.
End ConfigMore.

(** ** Security headers and CORS *)

Section SecurityMore.
Context `{!Externals}.
Variable unicode_upper : N -> pystr.

Lemma FLASK_ENV_of_startup (env : environ) (c : AppConfig) :
  startup env = Ok c ->
  FLASK_ENV (config_attrs c) = getenv_default env "FLASK_ENV" "development"
  /\ config_class c = get_config env.
Proof.
  unfold startup, Config_body.
  destruct (py_int _); [|discriminate].
  destruct (py_int _); [|discriminate].
  by intros [= <-].
Qed.

Lemma FLASK_ENV_production (env : environ) :
  getenv_default env "FLASK_ENV" "development" = codepoints "production" <->
  env !! "FLASK_ENV" = Some (codepoints "production").
Proof.
  unfold getenv_default. destruct (env !! "FLASK_ENV") as [v|]; split.
  - by intros ->.
  - by intros [= ->].
  - intros Hx. by apply codepoints_inj in Hx.
  - discriminate.
Qed.

(** The policy of an environment that is not [development] names its
    sources: every directive allows ['self'] and none has the wild card. *)
Lemma CSP_strict (env : environ) (d : string) (srcs : list string) :
  csp_development env = false ->
  (d, srcs) ∈ CSP env -> "'self'" ∈ srcs /\ "*" ∉ srcs.
Proof.
  intros Hdev. unfold CSP. rewrite Hdev. cbv zeta.
  rewrite !elem_of_cons, elem_of_nil.
  intros [Hx|[Hx|[Hx|[Hx|[Hx|[Hx|[]]]]]]]; injection Hx as -> ->;
    (split; [apply list_elem_of_here|]);
    rewrite !elem_of_cons, elem_of_nil; intros Hor;
    repeat destruct Hor as [Hor|Hor]; try discriminate Hor; done.
Qed.

(** X7. Talisman is set up at start-up exactly when [FLASK_ENV] is
    [production] and the package can be imported.  It then gets a policy
    in which every directive allows ['self'] and none has the wild card,
    with HTTPS forced and secure cookies, whatever the other variables
    say; the policy with wild cards, built for [development], is never
    handed to it. *)
Theorem talisman_only_in_production
    (importable : bool) (env : environ) (c : AppConfig) :
  startup env = Ok c ->
  (is_Some (security_at_startup unicode_upper importable env c) <->
   importable = true /\ env !! "FLASK_ENV" = Some (codepoints "production"))
  /\ (forall args,
        security_at_startup unicode_upper importable env c = Some args ->
        config_class c = ProductionConfig
        /\ force_https args = true
        /\ session_cookie_secure args = true
        /\ session_cookie_http_only args = true
        /\ forall d srcs, (d, srcs) ∈ content_security_policy args ->
                          "'self'" ∈ srcs /\ "*" ∉ srcs).
Proof.
  intros Hs. destruct (FLASK_ENV_of_startup env c Hs) as [Hfe Hcls].
  unfold security_at_startup, init_security_for_production.
  rewrite Hfe, Hcls.
  destruct (decide (getenv_default env "FLASK_ENV" "development"
                    = codepoints "production")) as [Hp|Hnp].
  - rewrite (bool_decide_eq_true_2 _ Hp).
    rewrite bool_decide_eq_true_2
      by (rewrite Hp; intros Hx; by apply codepoints_inj in Hx).
    apply FLASK_ENV_production in Hp.
    assert (Hcp : get_config env = ProductionConfig)
      by (by apply get_config_production).
    destruct importable; split.
    + split; [by intros _ | by eexists].
    + intros args [= <-]. simpl. rewrite Hcp. repeat split; auto.
      all: apply (CSP_strict env d srcs); auto;
        unfold csp_development, getenv; rewrite Hp;
        apply bool_decide_eq_false_2; intros [= Hx];
        by apply codepoints_inj in Hx.
    + split; [intros [? ?]; discriminate | intros [? _]; discriminate].
    + discriminate.
  - rewrite (bool_decide_eq_false_2 _ Hnp).
    assert (Hnone : (if bool_decide (getenv_default env "FLASK_ENV" "development"
                                     <> codepoints "development")
                     then @None TalismanArgs else None) = None)
      by (by destruct (bool_decide _)).
    rewrite Hnone. split.
    + split; [intros [? ?]; discriminate|].
      intros [_ Hp]. by apply FLASK_ENV_production in Hp.
    + discriminate.
Qed.
End SecurityMore.

Section CorsMore.
Context `{!Externals}.

Lemma split_on_nonempty (sep : N) (s : pystr) : split_on sep s <> [].
Proof.
  destruct s as [|c r]; simpl; [done|].
  destruct (c =? sep); [done|]. by destruct (split_on sep r).
Qed.

Lemma join_split (sep : N) (s : pystr) : join_with sep (split_on sep s) = s.
Proof.
  induction s as [|c r IH]; [reflexivity|]. simpl.
  destruct (c =? sep) eqn:Hc.
  - apply N.eqb_eq in Hc as ->.
    pose proof (split_on_nonempty sep r) as Hne.
    destruct (split_on sep r) as [|p ps] eqn:Hs; [done|].
    simpl in *. by rewrite IH.
  - pose proof (split_on_nonempty sep r) as Hne.
    destruct (split_on sep r) as [|p ps] eqn:Hs; [done|].
    simpl in *. destruct ps; simpl in *; by rewrite <- IH.
Qed.

Lemma split_on_no_sep (sep : N) (s : pystr) :
  Forall (fun p => sep ∉ p) (split_on sep s).
Proof.
  induction s as [|c r IH]; simpl.
  - constructor; [apply not_elem_of_nil | constructor].
  - destruct (c =? sep) eqn:Hc.
    + constructor; [apply not_elem_of_nil | exact IH].
    + apply N.eqb_neq in Hc. destruct (split_on sep r) as [|p ps].
      * constructor; [|constructor]. rewrite not_elem_of_cons.
        split; [congruence | apply not_elem_of_nil].
      * inversion IH; subst. constructor; [|done].
        rewrite not_elem_of_cons. split; [congruence | done].
Qed.

Lemma split_on_length (sep : N) (s : list N) :
  length (split_on sep s) = S (length (filter (fun c => c = sep) s)).
Proof.
  induction s as [|c r IH]; [reflexivity|].
  rewrite filter_cons. cbn [split_on].
  destruct (N.eqb_spec c sep) as [->|Hne].
  - rewrite decide_True by done. simpl. by rewrite IH.
  - rewrite decide_False by done.
    pose proof (split_on_nonempty sep r) as Hn.
    destruct (split_on sep r) as [|p ps]; [done|]. simpl in *. exact IH.
Qed.

(** The pieces of a list of comma-free pieces are found again. *)
Lemma split_join (sep : N) (pieces : list pystr) :
  pieces <> [] -> Forall (fun p => sep ∉ p) pieces ->
  split_on sep (join_with sep pieces) = pieces.
Proof.
  induction pieces as [|p ps IH]; [done|]. intros _ Hall.
  inversion Hall as [|? ? Hp Hps]; subst.
  assert (Hstep : forall (q rest : list N), sep ∉ q ->
            split_on sep (q ++ sep :: rest)%list = q :: split_on sep rest).
  { induction q as [|c q IHq]; intros rest Hq; simpl.
    - by rewrite N.eqb_refl.
    - apply not_elem_of_cons in Hq as [Hc Hq].
      destruct (N.eqb_spec c sep) as [->|_]; [done|].
      by rewrite (IHq rest Hq). }
  destruct ps as [|p' ps'].
  - simpl. clear IH Hall Hps.
    induction p as [|c p IHp]; [reflexivity|]. simpl.
    apply not_elem_of_cons in Hp as [Hc Hp].
    destruct (N.eqb_spec c sep) as [->|_]; [done|]. by rewrite (IHp Hp).
  - change (join_with sep (p :: p' :: ps'))
      with (p ++ sep :: join_with sep (p' :: ps'))%list.
    rewrite Hstep by exact Hp.
    by rewrite IH.
Qed.

Lemma lstrip_suffix (s : pystr) : lstrip s `suffix_of` s.
Proof.
  induction s as [|c r IH]; simpl; [done|].
  destruct (isspace c); [by apply suffix_cons_r | done].
Qed.

Lemma lstrip_head (s : pystr) :
  match lstrip s with c :: _ => isspace c = false | [] => True end.
Proof.
  induction s as [|c r IH]; simpl; [done|].
  destruct (isspace c) eqn:Hc; [exact IH | exact Hc].
Qed.

Lemma lstrip_lstrip (s : pystr) : lstrip (lstrip s) = lstrip s.
Proof. apply lstrip_id, lstrip_head. Qed.

Lemma lstrip_keeps_last (l : pystr) (c : N) :
  isspace c = false ->
  exists pre : pystr, lstrip (l ++ [c])%list = (pre ++ [c])%list.
Proof.
  intros Hc. induction l as [|x l IH]; simpl.
  - rewrite Hc. by exists [].
  - destruct (isspace x); [exact IH|]. by exists (x :: l).
Qed.

Lemma lstrip_elem (s : pystr) (c : N) : c ∈ lstrip s -> c ∈ s.
Proof.
  intros Hin. destruct (lstrip_suffix s) as [k Hk].
  rewrite Hk, elem_of_app. by right.
Qed.

Lemma strip_elem (s : pystr) (c : N) : c ∈ strip s -> c ∈ s.
Proof.
  unfold strip, rstrip. intros Hin.
  apply list_elem_of_In in Hin. rewrite <- in_rev in Hin.
  apply list_elem_of_In, lstrip_elem in Hin.
  apply list_elem_of_In in Hin. rewrite <- in_rev in Hin.
  by apply list_elem_of_In, lstrip_elem in Hin.
Qed.

(** Stripping twice is stripping once. *)
Lemma strip_strip (s : pystr) : strip (strip s) = strip s.
Proof.
  unfold strip at 1. unfold strip at 2.
  set (t := lstrip s).
  assert (Ht : match t with c :: _ => isspace c = false | [] => True end)
    by apply lstrip_head.
  assert (Hhead : lstrip (rstrip t) = rstrip t).
  { apply lstrip_id. destruct t as [|c t']; [done|].
    unfold rstrip. simpl rev at 2.
    destruct (lstrip_keeps_last (rev t') c Ht) as [pre ->].
    by rewrite rev_app_distr. }
  unfold strip. fold t. rewrite Hhead.
  unfold rstrip. rewrite rev_involutive. by rewrite lstrip_lstrip.
Qed.

(** X8. The origins given to [CORS]: the wild card exactly when
    [ALLOWED_ORIGINS] is unset or is the one character [*]; otherwise one
    origin more than there are commas in the setting, each with no comma
    in it and with no white space left to strip at either end. *)
Theorem cors_origins_spec (env : environ) :
  (cors_origins (ALLOWED_ORIGINS env) = AnyOrigin <->
   env !! "ALLOWED_ORIGINS" = None
   \/ env !! "ALLOWED_ORIGINS" = Some (codepoints "*"))
  /\ (forall l, cors_origins (ALLOWED_ORIGINS env) = OriginList l ->
        length l = S (length (filter (fun c => c = 44) (ALLOWED_ORIGINS env)))
        /\ Forall (fun o => (44 ∉ o) /\ strip o = o) l).
Proof.
  unfold cors_origins. split.
  - unfold ALLOWED_ORIGINS, getenv_default.
    destruct (env !! "ALLOWED_ORIGINS") as [v|].
    + case_bool_decide as Hv; split; try done.
      * intros [|[= ->]]; done.
      * intros _. right. f_equal. by destruct (decide (v = codepoints "*")).
    + rewrite bool_decide_eq_false_2 by (intros Hx; by apply Hx).
      split; auto.
  - intros l. case_bool_decide; [|discriminate]. intros [= <-].
    split.
    + rewrite length_fmap. apply split_on_length.
    + apply Forall_fmap.
      eapply Forall_impl; [apply (split_on_no_sep 44)|].
      intros p Hp. simpl. split; [|apply strip_strip].
      intros Hin. by apply Hp, strip_elem.
Qed.

(** X9. [ALLOWED_METHODS] is never empty, none of its entries has a comma,
    and joined by commas the entries give back the setting character for
    character: nothing is trimmed, so white space around a method stays
    in it. *)
Theorem allowed_methods_spec (env : environ) :
  ALLOWED_METHODS env <> []
  /\ Forall (fun m => 44 ∉ m) (ALLOWED_METHODS env)
  /\ join_with 44 (ALLOWED_METHODS env)
     = getenv_default env "ALLOWED_METHODS" "GET,POST,OPTIONS"
  /\ (env !! "ALLOWED_METHODS" = None ->
      ALLOWED_METHODS env
      = [codepoints "GET"; codepoints "POST"; codepoints "OPTIONS"]).
Proof.
  unfold ALLOWED_METHODS. repeat split.
  - apply split_on_nonempty.
  - apply split_on_no_sep.
  - apply join_split.
  - intros Hn. unfold getenv_default. by rewrite Hn.
Qed.

(** X10. Splitting at commas and joining with commas are inverse to each
    other on lists of comma-free pieces: a list of methods written out
    with commas is read back as the same list. *)
Theorem methods_round_trip (env : environ) (methods : list pystr) :
  methods <> [] ->
  Forall (fun m => 44 ∉ m) methods ->
  env !! "ALLOWED_METHODS" = Some (join_with 44 methods) ->
  ALLOWED_METHODS env = methods.
Proof.
  intros Hne Hall Henv. unfold ALLOWED_METHODS, getenv_default.
  rewrite Henv. by apply split_join.
Qed.
End CorsMore.

(** ** The handlers and the table *)

Section TableMore.
Context `{!Externals}.

(** X11. Only [register] and [profile] write to the table: a request to
    any other route leaves every row as it was. *)
Theorem only_register_and_profile_write (r : Route) (req : Request) (w : World) :
  users (snd (handler r req w)) <> users w -> r = RRegister \/ r = RProfile.
Proof.
  destruct r; simpl; intros Hne; auto; exfalso; apply Hne.
  - reflexivity.
  - apply login_users.
  - apply logout_users.
  - apply dashboard_users.
Qed.

Lemma replace_row_ids (u' : User) (t : list User) :
  id <$> replace_row u' t = id <$> t.
Proof.
  unfold replace_row. rewrite <- list_fmap_compose.
  apply list_fmap_ext. intros i u _. simpl. by case_bool_decide.
Qed.

(** X12. No request deletes a user or changes an identifier: the
    identifiers stored before a request are, in the same order, the first
    identifiers stored after it, and at most one row is new. *)
Theorem identifiers_are_kept (r : Route) (req : Request) (w : World) :
  (id <$> users w) `prefix_of` (id <$> users (snd (handler r req w)))
  /\ (length (users (snd (handler r req w))) <= S (length (users w)))%nat.
Proof.
  assert (Hsame : forall t : list User,
             t = users w ->
             (id <$> users w) `prefix_of` (id <$> t)
             /\ (length t <= S (length (users w)))%nat).
  { intros t ->. split; [done | lia]. }
  destruct r; simpl.
  - by apply Hsame.
  - apply Hsame, login_users.
  - destruct (register_users w req) as [Heq | (u & _ & _ & _ & _ & _ & Heq & _)].
    + by apply Hsame.
    + rewrite Heq, fmap_app, length_app. simpl.
      split; [by apply prefix_app_r | lia].
  - apply Hsame, logout_users.
  - apply Hsame, dashboard_users.
  - destruct (profile_users w req)
      as [Heq | (cu & cu' & k & _ & _ & _ & _ & _ & _ & _ & _ & Heq & _)].
    + by apply Hsame.
    + rewrite Heq, replace_row_ids. unfold replace_row.
      rewrite length_fmap. split; [done | lia].
Qed.

Lemma next_id_above (t : list User) (u : User) :
  u ∈ t -> (id u < next_id t)%Z.
Proof.
  unfold next_id. induction t as [|x t IH]; intros Hin.
  - by apply elem_of_nil in Hin.
  - rewrite fmap_cons. cbn [foldr].
    apply elem_of_cons in Hin as [-> | Hin]; [lia|].
    specialize (IH Hin). lia.
Qed.

Lemma query_by_username_none (t : list User) (n : pystr) :
  query_by_username t n = None -> n ∉ username <$> t.
Proof.
  unfold query_by_username. intros Hf Hin.
  apply list_elem_of_fmap in Hin as (u & -> & Hu).
  apply list_elem_of_In in Hu.
  pose proof (find_none _ _ Hf u Hu) as Hb. simpl in Hb.
  by rewrite bool_decide_eq_false in Hb.
Qed.

Lemma query_by_email_none (t : list User) (e : pystr) :
  query_by_email t e = None -> e ∉ email <$> t.
Proof.
  unfold query_by_email. intros Hf Hin.
  apply list_elem_of_fmap in Hin as (u & -> & Hu).
  apply list_elem_of_In in Hu.
  pose proof (find_none _ _ Hf u Hu) as Hb. simpl in Hb.
  by rewrite bool_decide_eq_false in Hb.
Qed.

(** A row with the next identifier and a name and an email nobody has
    keeps the constraints. *)
Lemma table_unique_new_row (t : list User) (n e h : pystr) :
  table_unique t = true ->
  query_by_username t n = None -> query_by_email t e = None ->
  table_unique
    (t ++ [{| id := next_id t; username := n; email := e; password_hash := h |}])
  = true.
Proof.
  rewrite !table_unique_true. intros (Hi & Hn & He) Hqn Hqe.
  rewrite !fmap_app. simpl.
  repeat split; apply NoDup_app; (split; [done|]); (split; [|apply NoDup_singleton]).
  - intros k Hk Hk'. apply list_elem_of_singleton in Hk' as ->.
    apply list_elem_of_fmap in Hk as (u & Hku & Hu).
    pose proof (next_id_above t u Hu). lia.
  - intros k Hk Hk'. apply list_elem_of_singleton in Hk' as ->.
    by apply (query_by_username_none t n).
  - intros k Hk Hk'. apply list_elem_of_singleton in Hk' as ->.
    by apply (query_by_email_none t e).
Qed.

(** What a validating registration form says about its fields. *)
Lemma RegistrationForm_valid_fields (t : list User) (f : FormData) :
  RegistrationForm_errors t f = [] ->
  Email (email_data f) = Passed
  /\ DataRequired (password_data f) = Passed
  /\ EqualTo (confirm_password_data f) (password_data f) = Passed.
Proof.
  intros He. apply collect_errors_nil in He.
  rewrite !Forall_cons in He. cbn [snd] in He.
  destruct He as (H1 & H2 & H3 & H4 & _).
  repeat match goal with
         | Hc : run_validation_chain (_ :: _) = [] |- _ =>
             apply chain_nil in Hc as [? ?]
         end.
  by repeat split.
Qed.

(** The whole effect of a registration that validates. *)
Lemma register_valid_eq (w w1 : World) (req : Request) :
  table_unique (users w) = true ->
  current_user w = (Ok None, w1) ->
  method req = POST ->
  RegistrationForm_errors (users w) (form req) = [] ->
  let user := {| id := next_id (users w);
                 username := username_data (form req);
                 email := email_data (form req);
                 password_hash :=
                   generate_password_hash (rng w) (password_data (form req)) |} in
  register req w
  = (Ok (Redirect (codepoints "/login")),
     with_flashes (flashes w ++ [("success", msg_account_created)])
       (with_users (users w ++ [user])
          (with_trace
             (trace w1 ++ [EvValidate "RegistrationForm"; EvAdd user; EvCommit])
             (with_rng (rng w + 1) w1)))).
Proof.
  intros Hun Hcu Hm He user.
  destruct (current_user_frame _ _ _ Hcu) as (Hu & Hs & _ & Hf & Hr & _).
  pose proof (RegistrationForm_valid _ _ He) as (_ & _ & Hqn & Hqe & _).
  pose proof (table_unique_new_row (users w) _ _
                (generate_password_hash (rng w) (password_data (form req)))
                Hun Hqn Hqe) as Hnew.
  unfold register. rewrite bind_eq, Hcu. simpl.
  unfold validate_on_submit. rewrite Hm. run_app. rewrite Hu, He. simpl.
  unfold hash_password. run_app. rewrite commit_eq. simpl.
  rewrite Hr, Hnew. simpl. rewrite Hf. subst user.
  by rewrite <- !app_assoc.
Qed.

(** X13. A registration whose form validates is always stored: on a
    table that satisfies the constraints the commit does not fail, the
    new row gets the next identifier, the submitted name and email and the
    hash of the submitted password, the success message is flashed and
    the browser is sent to the login page, still not logged in. *)
Theorem valid_registration_is_stored (w w1 : World) (req : Request) :
  table_unique (users w) = true ->
  current_user w = (Ok None, w1) ->
  method req = POST ->
  RegistrationForm_errors (users w) (form req) = [] ->
  fst (register req w) = Ok (Redirect (codepoints "/login"))
  /\ users (snd (register req w))
     = (users w ++ [{| id := next_id (users w);
                       username := username_data (form req);
                       email := email_data (form req);
                       password_hash :=
                         generate_password_hash (rng w) (password_data (form req)) |}])%list
  /\ flashes (snd (register req w))
     = (flashes w ++ [("success", msg_account_created)])%list
  /\ session_user_id (snd (register req w)) = session_user_id w.
Proof.
  intros Hun Hcu Hm He.
  destruct (current_user_frame _ _ _ Hcu) as (_ & Hs & _).
  rewrite (register_valid_eq w w1 req Hun Hcu Hm He). simpl.
  by repeat split.
Qed.
End TableMore.

(** ** Logging in and out *)

Section SessionMore.
Context `{!Externals}.

Lemma query_by_email_new_row (t : list User) (u : User) :
  query_by_email t (email u) = None ->
  query_by_email (t ++ [u]) (email u) = Some u.
Proof.
  unfold query_by_email. induction t as [|x t IH]; simpl.
  - intros _. by rewrite bool_decide_eq_true_2.
  - destruct (bool_decide (email x = email u)); [discriminate | exact IH].
Qed.

Lemma query_get_unique (t : list User) (u : User) :
  NoDup (id <$> t) -> u ∈ t -> query_get t (id u) = Some u.
Proof.
  unfold query_get. induction t as [|x t IH]; intros Hnd Hin.
  - by apply elem_of_nil in Hin.
  - rewrite fmap_cons in Hnd. apply NoDup_cons in Hnd as [Hx Hnd].
    simpl. apply elem_of_cons in Hin as [-> | Hin].
    + by rewrite bool_decide_eq_true_2.
    + rewrite bool_decide_eq_false_2; [by apply IH|].
      intros Heq. apply Hx. rewrite Heq. by apply list_elem_of_fmap_2.
Qed.

Lemma query_by_email_elem (t : list User) (e : pystr) (u : User) :
  query_by_email t e = Some u -> u ∈ t /\ email u = e.
Proof.
  unfold query_by_email. intros Hf. apply find_some in Hf as [Hin Hb].
  split; [by apply list_elem_of_In | by apply bool_decide_eq_true in Hb].
Qed.

(** X14. Registering and then logging in with the same email and
    password succeeds, provided the library's verification accepts the
    hashes the library makes: the session then names the new user. *)
Theorem register_then_login (w : World) (reg log_in : Request) :
  (forall salt raw, check_password_hash (generate_password_hash salt raw) raw = true) ->
  table_unique (users w) = true ->
  session_user_id w = None ->
  method reg = POST ->
  RegistrationForm_errors (users w) (form reg) = [] ->
  method log_in = POST ->
  email_data (form log_in) = email_data (form reg) ->
  password_data (form log_in) = password_data (form reg) ->
  session_user_id (snd (login log_in (snd (register reg w))))
    = Some (py_str_of_int (next_id (users w)))
  /\ fst (login log_in (snd (register reg w)))
     = Ok (Redirect match args_next log_in with
                    | Some (c :: n) => c :: n
                    | _ => codepoints "/dashboard"
                    end).
Proof.
  intros Hhash Hun Hs Hm He Hm' Hemail Hpw.
  assert (Hcu : current_user w = (Ok None, w))
    by (by rewrite current_user_eq, Hs).
  pose proof (register_valid_eq w w reg Hun Hcu Hm He) as Hreg.
  cbv zeta in Hreg.
  assert (Hrows : users (snd (register reg w))
                  = (users w ++ [{| id := next_id (users w);
                        username := username_data (form reg);
                        email := email_data (form reg);
                        password_hash :=
                          generate_password_hash (rng w)
                            (password_data (form reg)) |}])%list)
    by (by rewrite Hreg).
  assert (Hs' : session_user_id (snd (register reg w)) = session_user_id w)
    by (by rewrite Hreg).
  clear Hreg.
  set (w' := snd (register reg w)) in *.
  assert (Hcu' : current_user w' = (Ok None, w'))
    by (by rewrite current_user_eq, Hs', Hs).
  pose proof (RegistrationForm_valid _ _ He) as (_ & Hde & _ & Hqe & _).
  pose proof (RegistrationForm_valid_fields _ _ He) as (Hem & Hdp & _).
  set (u := {| id := next_id (users w);
               username := username_data (form reg);
               email := email_data (form reg);
               password_hash :=
                 generate_password_hash (rng w) (password_data (form reg)) |}) in *.
  assert (Hle : LoginForm_errors (form log_in) = []).
  { unfold LoginForm_errors. rewrite Hemail, Hpw, Hde, Hem, Hdp.
    reflexivity. }
  assert (Hq : query_by_email (users w') (email_data (form log_in)) = Some u).
  { rewrite Hrows, Hemail. by apply (query_by_email_new_row (users w) u). }
  destruct (login_success w' w' log_in u Hcu' Hm' Hle Hq) as (Hresp & Hsess & _).
  { rewrite Hpw. apply Hhash. }
  by split.
Qed.

(** X15. After a successful login the next request of the browser is
    served as the user who logged in: [load_user] reads back the
    identifier [login_user] left in the session and finds that user. *)
Theorem login_then_current_user
    (w w1 : World) (req next_req : Request) (user : User) :
  table_unique (users w) = true ->
  current_user w = (Ok None, w1) ->
  method req = POST ->
  LoginForm_errors (form req) = [] ->
  query_by_email (users w) (email_data (form req)) = Some user ->
  check_password_hash (password_hash user) (password_data (form req)) = true ->
  fst (current_user (snd (login req w))) = Ok (Some user)
  /\ fst (dashboard next_req (snd (login req w)))
     = Ok (Render "dashboard.html" [])
  /\ fst (login next_req (snd (login req w)))
     = Ok (Redirect (codepoints "/dashboard")).
Proof.
  intros Hun Hcu Hm He Hq Hc.
  destruct (login_success w w1 req user Hcu Hm He Hq Hc) as (_ & Hs & _ & Hu).
  apply table_unique_true in Hun as (Hids & _).
  apply query_by_email_elem in Hq as [Hin _].
  set (w' := snd (login req w)) in *.
  assert (Hcu' : current_user w'
                 = (Ok (Some user), loaded (py_str_of_int (id user)) w')).
  { rewrite current_user_eq, Hs, py_int_str, Hu.
    by rewrite (query_get_unique _ _ Hids Hin). }
  split; [by rewrite Hcu'|]. split.
  - unfold dashboard, login_required. by rewrite bind_eq, Hcu'.
  - unfold login. by rewrite bind_eq, Hcu'.
Qed.

(** X16. Logging out empties the session, flashes one message and sends
    the browser to the index page; the table is not touched, and the next
    request to a protected page is sent to the login page with that page
    as [next]. *)
Theorem logout_then_protected
    (w w1 : World) (u : User) (req next_req : Request) :
  current_user w = (Ok (Some u), w1) ->
  fst (logout req w) = Ok (Redirect (codepoints "/"))
  /\ session_user_id (snd (logout req w)) = None
  /\ flashes (snd (logout req w)) = (flashes w ++ [("info", msg_logged_out)])%list
  /\ users (snd (logout req w)) = users w
  /\ fst (dashboard next_req (snd (logout req w)))
     = Ok (Redirect (codepoints "/login?next=%2Fdashboard"))
  /\ fst (profile next_req (snd (logout req w)))
     = Ok (Redirect (codepoints "/login?next=%2Fprofile"))
  /\ fst (logout next_req (snd (logout req w)))
     = Ok (Redirect (codepoints "/login?next=%2Flogout")).
Proof.
  intros Hcu.
  destruct (current_user_frame _ _ _ Hcu) as (Hu & _ & _ & Hf & _).
  assert (Hlo : logout req w
                = (Ok (Redirect (codepoints "/")),
                   with_flashes (flashes w1 ++ [("info", msg_logged_out)])
                     (with_session None false
                        (with_trace (trace w1 ++ [EvLogoutUser]) w1)))).
  { unfold logout, login_required. by rewrite bind_eq, Hcu. }
  rewrite Hlo. simpl. rewrite Hf, Hu. repeat split.
  all: unfold dashboard, profile, logout, login_required;
    rewrite bind_eq, current_user_eq; reflexivity.
Qed.

(** X17. A session identifier that [int] cannot read makes [load_user]
    raise [ValueError], and with it every handler that asks for the
    current user: the request fails before anything is validated,
    looked up, flashed or written. *)
Theorem unreadable_session_fails
    (w : World) (sid : pystr) (e : exn) (r : Route) (req : Request) :
  session_user_id w = Some sid ->
  py_int sid = Raise e ->
  r <> RIndex ->
  load_user sid w = (Raise e, w)
  /\ handler r req w = (Raise e, loaded sid w).
Proof.
  intros Hs Hi Hr.
  assert (Hcu : current_user w = (Raise e, loaded sid w))
    by (by rewrite current_user_eq, Hs, Hi).
  split; [by rewrite load_user_eq, Hi|].
  destruct r; simpl; [done|..];
    unfold login, register, logout, dashboard, profile, login_required;
    by rewrite bind_eq, Hcu.
Qed.
End SessionMore.

(** ** Profile updates *)

Section ProfileMore.
Context `{!Externals}.

(** X18. Every profile update that succeeds replaces the password hash:
    the form validates only with a password that passes the policy, and
    the handler then stores the submitted name, the submitted email and a
    fresh hash of that password in the row of the current user. *)
Theorem profile_success_rehashes (w w1 : World) (cu : User) (req : Request) :
  current_user w = (Ok (Some cu), w1) ->
  fst (profile req w) = Ok (Redirect (codepoints "/profile")) ->
  method req = POST
  /\ PasswordValidator_call (password_data (form req)) = None
  /\ users (snd (profile req w))
     = replace_row {| id := id cu;
                      username := username_data (form req);
                      email := email_data (form req);
                      password_hash :=
                        generate_password_hash (rng w) (password_data (form req)) |}
         (users w)
  /\ flashes (snd (profile req w))
     = (flashes w ++ [("success", msg_profile_updated)])%list.
Proof.
  intros Hcu.
  destruct (current_user_frame _ _ _ Hcu) as (Hu & _ & _ & Hf & Hr & _).
  unfold profile, login_required. rewrite bind_eq, Hcu.
  unfold validate_on_submit.
  destruct (method req) eqn:Hm; run_app; [discriminate|].
  destruct (bool_decide (ProfileForm_errors (form req) = [])) eqn:He;
    simpl; [|discriminate].
  apply bool_decide_eq_true in He.
  pose proof (ProfileForm_valid _ He) as (_ & _ & Hacc).
  assert (Hcall : PasswordValidator_call (password_data (form req)) = None).
  { unfold accepts in Hacc.
    by destruct (PasswordValidator_call (password_data (form req))). }
  destruct (password_data (form req)) as [|c raw] eqn:Hp.
  { exfalso. by destruct (ProfileForm_blank_password (form req) Hp). }
  unfold hash_password. run_app. rewrite commit_eq. simpl.
  destruct (table_unique _); simpl; [|discriminate].
  intros _. rewrite Hu, Hf, Hr. by repeat split.
Qed.

(** X19. A profile request never touches the row of anybody but the
    current user: every row with another identifier is afterwards where
    and what it was. *)
Theorem profile_leaves_other_rows
    (w w1 : World) (cu other : User) (req : Request) (i : nat) :
  current_user w = (Ok (Some cu), w1) ->
  users w !! i = Some other ->
  id other <> id cu ->
  users (snd (profile req w)) !! i = Some other.
Proof.
  intros Hcu Hi Hid.
  destruct (profile_users w req)
    as [-> | (cu0 & cu' & k & Hfst & _ & _ & _ & Hid' & _ & _ & _ & -> & _)];
    [exact Hi|].
  rewrite Hcu in Hfst. simpl in Hfst. injection Hfst as <-.
  rewrite (replace_row_lookup cu' _ i other Hi).
  by rewrite bool_decide_eq_false_2 by congruence.
Qed.
End ProfileMore.

(** ** Logins that do not verify anything *)

Section LoginMore.
Context `{!Externals}.

(** X20. A request to [/login] that is not a valid submission, a GET or
    a POST whose form has errors, only validates: the state afterwards is
    the state before plus at most the validation event, so no user was
    looked up, no password was checked, nothing was flashed and no
    session was set. *)
Theorem login_without_valid_form (w w1 : World) (req : Request) :
  current_user w = (Ok None, w1) ->
  method req = GET \/ LoginForm_errors (form req) <> [] ->
  snd (login req w)
  = match method req with
    | GET => w1
    | POST => with_trace (trace w1 ++ [EvValidate "LoginForm"]) w1
    end.
Proof.
  intros Hcu Hnv. unfold login. rewrite bind_eq, Hcu. simpl.
  unfold validate_on_submit.
  destruct (method req) eqn:Hm; run_app; [reflexivity|].
  destruct Hnv as [Hget | Hne]; [discriminate|].
  by rewrite bool_decide_eq_false_2 by exact Hne.
Qed.

(** X21. What a login that does not succeed answers is the same on every
    store: the same request, failing on two tables for whatever reason
    (form errors, unknown email, wrong password), gets the same page with
    the same messages, flashes the same and leaves both sessions as they
    were. *)
Theorem failed_login_reveals_nothing
    (w w1 w' w1' : World) (req : Request) :
  current_user w = (Ok None, w1) ->
  current_user w' = (Ok None, w1') ->
  match query_by_email (users w) (email_data (form req)) with
  | Some user =>
      check_password_hash (password_hash user) (password_data (form req)) = false
  | None => True
  end ->
  match query_by_email (users w') (email_data (form req)) with
  | Some user =>
      check_password_hash (password_hash user) (password_data (form req)) = false
  | None => True
  end ->
  fst (login req w) = fst (login req w')
  /\ (exists new, flashes (snd (login req w)) = (flashes w ++ new)%list
                  /\ flashes (snd (login req w')) = (flashes w' ++ new)%list)
  /\ session_user_id (snd (login req w)) = session_user_id w
  /\ session_user_id (snd (login req w')) = session_user_id w'.
Proof.
  intros Hcu Hcu' Hq Hq'.
  assert (Hcases : (method req = POST /\ LoginForm_errors (form req) = [])
                   \/ (method req = GET \/ LoginForm_errors (form req) <> [])).
  { destruct (method req); [right; by left|].
    destruct (decide (LoginForm_errors (form req) = [])); [by left|].
    right. by right. }
  destruct Hcases as [[Hm He] | Hnv].
  - destruct (login_failure w w1 req Hcu Hm He Hq) as (-> & -> & -> & _).
    destruct (login_failure w' w1' req Hcu' Hm He Hq') as (-> & -> & -> & _).
    repeat split. by exists [("danger", msg_login_failed)].
  - destruct (login_not_valid w w1 req Hcu Hnv) as (-> & -> & -> & _).
    destruct (login_not_valid w' w1' req Hcu' Hnv) as (-> & -> & -> & _).
    repeat split. exists []. by rewrite !app_nil_r.
Qed.
End LoginMore.

(** ** What can go wrong in a run *)

Section RunMore.
Context `{!Externals}.

Lemma current_user_printed (w : World) :
  printed_session (session_user_id w) ->
  exists cu w1, current_user w = (Ok cu, w1).
Proof.
  intros Hp. rewrite current_user_eq.
  destruct (session_user_id w) as [sid|]; [|by eexists _, _].
  destruct Hp as [k ->]. rewrite py_int_str. by eexists _, _.
Qed.

(** On a state whose session was written by [login_user] and whose table
    satisfies the constraints, the only handler that can raise is
    [profile], and only with the duplicate error of the commit. *)
Lemma handler_raises (r : Route) (req : Request) (w : World) (e : exn) :
  printed_session (session_user_id w) ->
  table_unique (users w) = true ->
  fst (handler r req w) = Raise e ->
  r = RProfile /\ e = IntegrityError "UNIQUE constraint failed".
Proof.
  intros Hp Hun.
  destruct (current_user_printed w Hp) as (cu & w1 & Hcu).
  destruct (current_user_frame _ _ _ Hcu) as (Hu & _).
  destruct r; simpl.
  - discriminate.
  - unfold login. rewrite bind_eq, Hcu.
    destruct cu as [u|]; simpl; [discriminate|].
    unfold validate_on_submit. run_app.
    destruct (method req); simpl; [discriminate|].
    destruct (bool_decide _); simpl; [|discriminate].
    destruct (query_by_email _ _); simpl; [|discriminate].
    unfold check_password. run_app.
    destruct (check_password_hash _ _); simpl; discriminate.
  - destruct cu as [u|].
    + unfold register. rewrite bind_eq, Hcu. simpl. discriminate.
    + destruct (method req) eqn:Hm.
      * unfold register. rewrite bind_eq, Hcu. simpl.
        unfold validate_on_submit. rewrite Hm. run_app. discriminate.
      * destruct (decide (RegistrationForm_errors (users w) (form req) = []))
          as [He | Hne].
        -- rewrite (register_valid_eq w w1 req Hun Hcu Hm He).
           discriminate.
        -- destruct (register_invalid w w1 req Hcu Hm Hne) as (-> & _).
           discriminate.
  - unfold logout, login_required. rewrite bind_eq, Hcu.
    destruct cu; simpl; discriminate.
  - unfold dashboard, login_required. rewrite bind_eq, Hcu.
    destruct cu; simpl; discriminate.
  - unfold profile, login_required. rewrite bind_eq, Hcu.
    destruct cu as [u|]; simpl; [|discriminate].
    unfold validate_on_submit. run_app.
    destruct (method req); simpl; [discriminate|].
    destruct (bool_decide _); simpl; [|discriminate].
    destruct (password_data (form req)); simpl.
    + rewrite commit_eq. simpl.
      destruct (table_unique (replace_row _ _)); simpl; [discriminate|].
      by intros [= <-].
    + unfold hash_password. run_app. rewrite commit_eq. simpl.
      destruct (table_unique (replace_row _ _)); simpl; [discriminate|].
      by intros [= <-].
Qed.

(** X22. In a run of requests on a fresh deployment no request ever
    fails with an exception, except a profile update that the store
    refuses with the duplicate error: [load_user] always reads the
    session it is given, and a registration that validated always
    commits. *)
Theorem run_raises_only_in_profile
    (vs : list (N * Route * Request)) (b : N) (r : Route) (req : Request)
    (e : exn) :
  fst (handler r req
         (with_session
            (fst (default (None, false) (jar (serve_all initial_server vs) !! b)))
            (snd (default (None, false) (jar (serve_all initial_server vs) !! b)))
            (state (serve_all initial_server vs))))
  = Raise e ->
  r = RProfile /\ e = IntegrityError "UNIQUE constraint failed".
Proof.
  apply handler_raises; simpl.
  - assert (Hall : map_Forall (fun _ c => printed_session (fst c))
                     (jar (serve_all initial_server vs)))
      by (apply serve_all_sessions, map_Forall_empty).
    destruct (jar (serve_all initial_server vs) !! b) as [c|] eqn:Hc;
      simpl; [|done].
    by apply (Hall _ _ Hc).
  - by destruct (serve_all_table_ok vs initial_server initial_table_ok).
Qed.
End RunMore.

(** ** When the forms validate *)

Section FormsMore.
Context `{!Externals}.

Lemma DataRequired_passed (d : pystr) :
  DataRequired d = Passed <-> strip d <> [].
Proof.
  unfold DataRequired. split.
  - case_bool_decide as Hd; simpl; [|discriminate].
    case_bool_decide; [done | discriminate].
  - intros Hs. rewrite (bool_decide_eq_true_2 _ Hs).
    rewrite bool_decide_eq_true_2; [done|]. by intros ->.
Qed.

Lemma Length_2_20_passed (d : pystr) :
  Length_2_20 d = Passed <-> (2 <= length d <= 20)%nat.
Proof.
  unfold Length_2_20. cbv zeta.
  destruct (N.leb_spec 2 (N.of_nat (length d)));
    destruct (N.leb_spec (N.of_nat (length d)) 20); simpl;
    split; intros Hx; try discriminate; try reflexivity; lia.
Qed.

Lemma Email_passed (d : pystr) : Email d = Passed <-> email_syntax_ok d = true.
Proof. unfold Email. destruct (email_syntax_ok d); split; done. Qed.

Lemma EqualTo_passed (d o : pystr) : EqualTo d o = Passed <-> d = o.
Proof. unfold EqualTo. case_bool_decide; split; done. Qed.

Lemma PasswordValidator_passed (d : pystr) :
  PasswordValidator d = Passed <-> PasswordValidator_call d = None.
Proof.
  unfold PasswordValidator. destruct (PasswordValidator_call d); split; done.
Qed.

Lemma validate_username_passed (t : list User) (d : pystr) :
  validate_username t d = Passed <-> d ∉ username <$> t.
Proof.
  unfold validate_username. split.
  - destruct (query_by_username t d) eqn:Hq; [discriminate|].
    intros _. by apply query_by_username_none.
  - intros Hn. destruct (query_by_username t d) as [u|] eqn:Hq; [|done].
    exfalso. apply Hn. unfold query_by_username in Hq.
    apply find_some in Hq as [Hin Hb]. apply bool_decide_eq_true in Hb as <-.
    by apply list_elem_of_fmap_2, list_elem_of_In.
Qed.

Lemma validate_email_passed (t : list User) (d : pystr) :
  validate_email t d = Passed <-> d ∉ email <$> t.
Proof.
  unfold validate_email. split.
  - destruct (query_by_email t d) eqn:Hq; [discriminate|].
    intros _. by apply query_by_email_none.
  - intros Hn. destruct (query_by_email t d) as [u|] eqn:Hq; [|done].
    exfalso. apply Hn. unfold query_by_email in Hq.
    apply find_some in Hq as [Hin Hb]. apply bool_decide_eq_true in Hb as <-.
    by apply list_elem_of_fmap_2, list_elem_of_In.
Qed.

Lemma chain_all_passed (chain : list Outcome) :
  run_validation_chain chain = [] <-> Forall (fun o => o = Passed) chain.
Proof.
  induction chain as [|o chain IH]; simpl.
  - split; [constructor | done].
  - rewrite Forall_cons, <- IH. destruct o; split; try done.
    + intros [_ ?]; done.
    + intros [? _]; done.
    + intros [? _]; done.
Qed.

Lemma collect_errors_nil_iff (fields : list (string * list string)) :
  collect_errors fields = [] <-> Forall (fun f => snd f = []) fields.
Proof.
  split; [apply collect_errors_nil|].
  unfold collect_errors. induction 1 as [|f fields Hf _ IH]; [done|].
  rewrite filter_cons. rewrite decide_False; [exact IH|].
  intros Hx. by apply Hx.
Qed.

(** X23. [RegistrationForm] validates exactly when the username is not
    blank, has 2 to 20 characters and is the name of no stored user, the
    email is not blank, has the syntax of an address and is the email of
    no stored user, the password is not blank and passes the password
    policy, and the confirmation repeats the password. *)
Theorem RegistrationForm_validates_iff (t : list User) (f : FormData) :
  RegistrationForm_errors t f = [] <->
  strip (username_data f) <> []
  /\ (2 <= length (username_data f) <= 20)%nat
  /\ (username_data f ∉ username <$> t)
  /\ strip (email_data f) <> []
  /\ email_syntax_ok (email_data f) = true
  /\ (email_data f ∉ email <$> t)
  /\ strip (password_data f) <> []
  /\ PasswordValidator_call (password_data f) = None
  /\ confirm_password_data f = password_data f.
Proof.
  unfold RegistrationForm_errors.
  rewrite collect_errors_nil_iff, !Forall_cons, Forall_nil. cbn [snd].
  rewrite !chain_all_passed, !Forall_cons, !Forall_nil.
  rewrite !DataRequired_passed, Length_2_20_passed, Email_passed,
    EqualTo_passed, PasswordValidator_passed, validate_username_passed,
    validate_email_passed.
  split.
  - tauto.
  - intros (? & ? & ? & ? & ? & ? & ? & ? & Hc). rewrite Hc. tauto.
Qed.

(** X24. [ProfileForm] validates exactly when the username is not blank
    and has 2 to 20 characters, the email is not blank and has the syntax
    of an address, the password passes the password policy and the
    confirmation repeats it.  Whether another user has the name or the
    email plays no role, and there is no way to validate without a
    password. *)
Theorem ProfileForm_validates_iff (f : FormData) :
  ProfileForm_errors f = [] <->
  strip (username_data f) <> []
  /\ (2 <= length (username_data f) <= 20)%nat
  /\ strip (email_data f) <> []
  /\ email_syntax_ok (email_data f) = true
  /\ PasswordValidator_call (password_data f) = None
  /\ confirm_password_data f = password_data f.
Proof.
  unfold ProfileForm_errors.
  rewrite collect_errors_nil_iff, !Forall_cons, Forall_nil. cbn [snd].
  rewrite !chain_all_passed, !Forall_cons, !Forall_nil.
  rewrite !DataRequired_passed, Length_2_20_passed, Email_passed,
    EqualTo_passed, PasswordValidator_passed.
  split.
  - tauto.
  - tauto.
Qed.

(** X25. The limits handed to flask-limiter come from the environment:
    the two default limits are [DEFAULT_RATE_LIMIT_DAY] followed by
    [ per day] and [DEFAULT_RATE_LIMIT_HOUR] followed by [ per hour], the
    limits of [/login] and [/register] are [LOGIN_RATE_LIMIT] and
    [REGISTER_RATE_LIMIT]; a variable that is not set counts as 200, 50,
    [5/minute] and [3/hour]. *)
Theorem limiter_limits (env : environ) (c : AppConfig) :
  startup env = Ok c ->
  default_limits c
  = [ (getenv_default env "DEFAULT_RATE_LIMIT_DAY" "200" ++ codepoints " per day")%list;
      (getenv_default env "DEFAULT_RATE_LIMIT_HOUR" "50" ++ codepoints " per hour")%list ]
  /\ login_limit c = getenv_default env "LOGIN_RATE_LIMIT" "5/minute"
  /\ register_limit c = getenv_default env "REGISTER_RATE_LIMIT" "3/hour"
  /\ (env !! "DEFAULT_RATE_LIMIT_DAY" = None ->
      env !! "DEFAULT_RATE_LIMIT_HOUR" = None ->
      default_limits c = [codepoints "200 per day"; codepoints "50 per hour"]).
Proof.
  unfold startup, Config_body.
  destruct (py_int _); [|discriminate].
  destruct (py_int _); [|discriminate].
  intros [= <-].
  unfold default_limits, login_limit, register_limit. simpl.
  repeat split. intros Hd Hh. unfold getenv_default. by rewrite Hd, Hh.
Qed.
End FormsMore.

(** ** The properties at concrete inputs *)

#[local] Existing Instance toy_externals.

Lemma C8_first_failing_rule_witness :
  PasswordValidator_call (codepoints "abcdefghijkl1!") = Some msg_uppercase
  /\ ((exists r : Rule,
        msg_uppercase = rule_message r
        /\ rule_holds 12 r (codepoints "abcdefghijkl1!") = false
        /\ (forall r' : Rule, (rule_rank r' < rule_rank r)%nat ->
              rule_holds 12 r' (codepoints "abcdefghijkl1!") = true))
      /\ (forall r1 r2 : Rule, rule_message r1 = rule_message r2 -> r1 = r2)).
Proof.
  split; [reflexivity|].
  apply (C8_first_failing_rule (codepoints "abcdefghijkl1!") msg_uppercase).
  reflexivity.
Defined.

(** A session that names user 7 on a table that has users 1 and 2. *)
Lemma C9_missing_user_is_anonymous_witness :
  (session_user_id stale_world = Some (py_str_of_int 7)
   /\ query_get (users stale_world) 7 = None)
  /\ load_user (py_str_of_int 7) stale_world = (Ok None, stale_world)
  /\ fst (current_user stale_world) = Ok None
  /\ is_authenticated None = false
  /\ fst (dashboard (post None no_form) stale_world)
     = Ok (Redirect (codepoints "/login?next=%2Fdashboard"))
  /\ users (snd (dashboard (post None no_form) stale_world)) = users stale_world.
Proof.
  split; [split; reflexivity|].
  apply (C9_missing_user_is_anonymous stale_world 7 (post None no_form));
    reflexivity.
Defined.

(** Alice, logged in, posts the login form and the registration form. *)
Lemma C10_authenticated_redirect_witness :
  current_user alice_world = (Ok (Some alice), alice_world_loaded)
  /\ login register_carol alice_world
     = (Ok (Redirect (codepoints "/dashboard")), alice_world_loaded)
  /\ register register_carol alice_world
     = (Ok (Redirect (codepoints "/dashboard")), alice_world_loaded)
  /\ users alice_world_loaded = users alice_world
  /\ session_user_id alice_world_loaded = session_user_id alice_world
  /\ session_remember alice_world_loaded = session_remember alice_world
  /\ flashes alice_world_loaded = flashes alice_world
  /\ exists sid, session_user_id alice_world = Some sid
                 /\ trace alice_world_loaded
                    = (trace alice_world ++ [EvLoadUser sid])%list.
Proof.
  split; [reflexivity|].
  apply (C10_authenticated_redirect alice_world alice_world_loaded alice).
  reflexivity.
Defined.

(** A wrong password for Alice and an address nobody registered. *)
Lemma C5_failed_logins_indistinguishable_witness :
  (query_by_email (users anonymous_world) (email_data (form login_alice_wrong))
   = Some alice
   /\ query_by_email (users anonymous_world) (email_data (form login_nobody))
      = None)
  /\ fst (login login_alice_wrong anonymous_world)
     = fst (login login_nobody anonymous_world)
  /\ fst (login login_alice_wrong anonymous_world) = Ok (Render "login.html" [])
  /\ flashes (snd (login login_alice_wrong anonymous_world))
     = flashes (snd (login login_nobody anonymous_world))
  /\ flashes (snd (login login_alice_wrong anonymous_world))
     = (flashes anonymous_world ++ [("danger", msg_login_failed)])%list
  /\ session_user_id (snd (login login_alice_wrong anonymous_world))
     = session_user_id anonymous_world
  /\ session_user_id (snd (login login_nobody anonymous_world))
     = session_user_id anonymous_world.
Proof.
  split; [split; reflexivity|].
  apply (C5_failed_logins_indistinguishable
           anonymous_world anonymous_world login_alice_wrong login_nobody alice);
    reflexivity.
Defined.

(** Alice logs in with [next] set to a page of the application. *)
Lemma C4_login_redirects_to_next_witness :
  fst (login (login_alice (Some "/profile")) anonymous_world)
  = Ok (Redirect (codepoints "/profile")).
Proof.
  apply (C4_login_redirects_to_next
           anonymous_world anonymous_world (login_alice (Some "/profile")) alice);
    reflexivity.
Defined.

(** C4, the claim as stated: the redirect of a successful login is local.
    Alice logs in with [next] set to an address on another host: the
    login succeeds and the redirect leaves the application. *)
Lemma C4_external_next_followed :
  session_user_id
    (snd (login (login_alice (Some "http://evil.example/")) anonymous_world))
  = Some (py_str_of_int 1)
  /\ fst (login (login_alice (Some "http://evil.example/")) anonymous_world)
     = Ok (Redirect (codepoints "http://evil.example/"))
  /\ is_local_url (codepoints "http://evil.example/") = false
  /\ ~ (forall target,
          fst (login (login_alice (Some "http://evil.example/")) anonymous_world)
          = Ok (Redirect target) ->
          is_local_url target = true).
Proof.
  split; [reflexivity|]. split; [reflexivity|]. split; [reflexivity|].
  intros Hlocal.
  specialize (Hlocal (codepoints "http://evil.example/") eq_refl).
  discriminate Hlocal.
Qed.

(** Alice, logged in, changes her name and leaves the password blank. *)
Lemma C3_blank_password_update_rejected_witness :
  fst (profile rename_blank_password alice_world)
  = Ok (Render "profile.html" (ProfileForm_errors (form rename_blank_password)))
  /\ ("password", [msg_length]) ∈ ProfileForm_errors (form rename_blank_password)
  /\ users (snd (profile rename_blank_password alice_world)) = users alice_world
  /\ flashes (snd (profile rename_blank_password alice_world))
     = flashes alice_world.
Proof.
  apply (C3_blank_password_update_rejected
           alice_world alice_world_loaded alice rename_blank_password);
    reflexivity.
Defined.

Lemma demo_table_ok : table_ok [alice; bob].
Proof. split; [reflexivity|]. repeat constructor. Qed.

(** A run of four requests; a second registration of Alice's name; Alice
    asking for Bob's name. *)
Lemma C6_unique_username_and_email_witness :
  (forall (i j : nat) (u1 u2 : User),
      users (state (serve_all initial_server demo_run)) !! i = Some u1 ->
      users (state (serve_all initial_server demo_run)) !! j = Some u2 ->
      username u1 = username u2 \/ email u1 = email u2 -> i = j)
  /\ ((exists errs,
          fst (register register_alice_again anonymous_world)
          = Ok (Render "register.html" errs)
          /\ (username alice = username_data (form register_alice_again) ->
              exists msgs, ("username", msgs) ∈ errs /\ msg_username_taken ∈ msgs)
          /\ (email alice = email_data (form register_alice_again) ->
              exists msgs, ("email", msgs) ∈ errs /\ msg_email_taken ∈ msgs))
      /\ users (snd (register register_alice_again anonymous_world))
         = users anonymous_world)
  /\ users (snd (profile rename_to_bob alice_world)) = users alice_world.
Proof.
  destruct (C6_unique_username_and_email
              demo_run anonymous_world anonymous_world
              alice_world alice_world_loaded
              register_alice_again rename_to_bob alice alice bob)
    as (Hrun & Hreg & Hupd).
  split; [exact Hrun|]. split.
  - apply Hreg.
    + exact demo_table_ok.
    + reflexivity.
    + reflexivity.
    + apply list_elem_of_here.
    + left. reflexivity.
  - apply Hupd.
    + exact demo_table_ok.
    + reflexivity.
    + apply list_elem_of_further, list_elem_of_here.
    + intros Hid. discriminate Hid.
    + left. reflexivity.
Defined.

(** What the run and the two requests do. *)
Example demo_run_stores_one_carol :
  username <$> users (state (serve_all initial_server demo_run))
  = [codepoints "carol"].
Proof. reflexivity. Qed.

Example rename_to_bob_raises :
  fst (profile rename_to_bob alice_world)
  = Raise (IntegrityError "UNIQUE constraint failed").
Proof. reflexivity. Qed.

Example rename_to_bob_passes_the_form :
  ProfileForm_errors (form rename_to_bob) = [].
Proof. reflexivity. Qed.

(** ** The further properties at concrete inputs *)

Lemma validator_ignores_order_witness :
  PasswordValidator_call (codepoints good_password)
  = PasswordValidator_call (rev (codepoints good_password)).
Proof.
  apply (validator_ignores_order (codepoints good_password)
           (rev (codepoints good_password))).
  apply Permutation_rev.
Defined.

Lemma validator_accepts_extensions_witness :
  PasswordValidator_call
    (codepoints "  " ++ codepoints good_password ++ codepoints "??")%list
  = None.
Proof.
  apply (validator_accepts_extensions
           (codepoints "  ") (codepoints good_password) (codepoints "??")).
  reflexivity.
Defined.

Lemma startup_other_variables_witness :
  match startup env_production_default_key with
  | Ok _ =>
      exists c, startup (<["SECRET_KEY" := codepoints "s3cret"]>
                           env_production_default_key) = Ok c
  | Raise e =>
      startup (<["SECRET_KEY" := codepoints "s3cret"]> env_production_default_key)
      = Raise e
  end.
Proof.
  apply (startup_other_variables env_production_default_key
           "SECRET_KEY" (codepoints "s3cret")); discriminate.
Defined.

Lemma production_guard_misses_unset_key_witness :
  exists c, Config_body env_production_no_key = Ok c
            /\ ProductionConfig_init env_production_no_key = Ok tt
            /\ SECRET_KEY c = codepoints dev_key.
Proof.
  eexists. split; [vm_compute; reflexivity|].
  apply (production_guard_misses_unset_key env_production_no_key);
    [reflexivity | vm_compute; reflexivity].
Defined.

Lemma talisman_only_in_production_witness :
  exists c args,
    startup env_production_default_key = Ok c
    /\ security_at_startup toy_upper true env_production_default_key c = Some args
    /\ config_class c = ProductionConfig
    /\ force_https args = true
    /\ session_cookie_secure args = true
    /\ ("default-src",
         ["'self'"; "cdn.jsdelivr.net"; "cdn.tailwindcss.com"; "unpkg.com";
          "fonts.googleapis.com"; "fonts.gstatic.com"])
       ∈ content_security_policy args.
Proof.
  eexists. eexists.
  split; [vm_compute; reflexivity|]. split; [vm_compute; reflexivity|].
  edestruct (talisman_only_in_production toy_upper true
               env_production_default_key) as [_ Hargs];
    [vm_compute; reflexivity|].
  edestruct Hargs as (Hc & Hf & Hs & _); [vm_compute; reflexivity|].
  split; [exact Hc|]. split; [exact Hf|]. split; [exact Hs|].
  apply list_elem_of_here.
Defined.

Lemma methods_round_trip_witness :
  ALLOWED_METHODS env_two_methods = [codepoints "GET"; codepoints "PUT"].
Proof.
  apply (methods_round_trip env_two_methods [codepoints "GET"; codepoints "PUT"]).
  - discriminate.
  - rewrite !Forall_cons, Forall_nil.
    repeat split; intros Hin; vm_compute in Hin;
      repeat (apply elem_of_cons in Hin as [Hin|Hin]; [discriminate Hin|]);
      by apply elem_of_nil in Hin.
  - reflexivity.
Defined.

Lemma only_register_and_profile_write_witness :
  users (snd (handler RRegister register_carol anonymous_world))
  <> users anonymous_world
  /\ (RRegister = RRegister \/ RRegister = RProfile).
Proof.
  assert (Hne : users (snd (handler RRegister register_carol anonymous_world))
                <> users anonymous_world) by (vm_compute; discriminate).
  split; [exact Hne|].
  apply (only_register_and_profile_write RRegister register_carol anonymous_world).
  exact Hne.
Defined.

Lemma valid_registration_is_stored_witness :
  fst (register register_carol anonymous_world) = Ok (Redirect (codepoints "/login"))
  /\ users (snd (register register_carol anonymous_world))
     = (users anonymous_world
        ++ [{| id := next_id (users anonymous_world);
               username := username_data (form register_carol);
               email := email_data (form register_carol);
               password_hash :=
                 generate_password_hash (rng anonymous_world)
                   (password_data (form register_carol)) |}])%list
  /\ flashes (snd (register register_carol anonymous_world))
     = (flashes anonymous_world ++ [("success", msg_account_created)])%list
  /\ session_user_id (snd (register register_carol anonymous_world))
     = session_user_id anonymous_world.
Proof.
  apply (valid_registration_is_stored anonymous_world anonymous_world
           register_carol); reflexivity.
Defined.

Lemma toy_hash_verifies (salt : N) (raw : pystr) :
  toy_check (toy_hash salt raw) raw = true.
Proof. unfold toy_check, toy_hash. by apply bool_decide_eq_true. Qed.

Lemma register_then_login_witness :
  session_user_id (snd (login login_carol (snd (register register_carol anonymous_world))))
  = Some (py_str_of_int (next_id (users anonymous_world)))
  /\ fst (login login_carol (snd (register register_carol anonymous_world)))
     = Ok (Redirect (codepoints "/dashboard")).
Proof.
  apply (register_then_login anonymous_world register_carol login_carol);
    try reflexivity.
  exact toy_hash_verifies.
Defined.

Lemma login_then_current_user_witness :
  fst (current_user (snd (login (login_alice None) anonymous_world)))
  = Ok (Some alice)
  /\ fst (dashboard (post None no_form) (snd (login (login_alice None) anonymous_world)))
     = Ok (Render "dashboard.html" [])
  /\ fst (login (post None no_form) (snd (login (login_alice None) anonymous_world)))
     = Ok (Redirect (codepoints "/dashboard")).
Proof.
  apply (login_then_current_user anonymous_world anonymous_world
           (login_alice None) (post None no_form) alice); reflexivity.
Defined.

Lemma logout_then_protected_witness :
  fst (logout (post None no_form) alice_world) = Ok (Redirect (codepoints "/"))
  /\ session_user_id (snd (logout (post None no_form) alice_world)) = None
  /\ flashes (snd (logout (post None no_form) alice_world))
     = (flashes alice_world ++ [("info", msg_logged_out)])%list
  /\ users (snd (logout (post None no_form) alice_world)) = users alice_world
  /\ fst (dashboard (post None no_form) (snd (logout (post None no_form) alice_world)))
     = Ok (Redirect (codepoints "/login?next=%2Fdashboard"))
  /\ fst (profile (post None no_form) (snd (logout (post None no_form) alice_world)))
     = Ok (Redirect (codepoints "/login?next=%2Fprofile"))
  /\ fst (logout (post None no_form) (snd (logout (post None no_form) alice_world)))
     = Ok (Redirect (codepoints "/login?next=%2Flogout")).
Proof.
  apply (logout_then_protected alice_world alice_world_loaded alice).
  reflexivity.
Defined.

Lemma unreadable_session_fails_witness :
  load_user (codepoints "abc") garbled_world = (Raise invalid_literal, garbled_world)
  /\ handler RDashboard (post None no_form) garbled_world
     = (Raise invalid_literal, loaded (codepoints "abc") garbled_world).
Proof.
  apply (unreadable_session_fails garbled_world (codepoints "abc")
           invalid_literal RDashboard (post None no_form));
    [reflexivity | reflexivity | discriminate].
Defined.

Lemma profile_success_rehashes_witness :
  method rename_with_password = POST
  /\ PasswordValidator_call (password_data (form rename_with_password)) = None
  /\ users (snd (profile rename_with_password alice_world))
     = replace_row
         {| id := id alice;
            username := username_data (form rename_with_password);
            email := email_data (form rename_with_password);
            password_hash :=
              generate_password_hash (rng alice_world)
                (password_data (form rename_with_password)) |}
         (users alice_world)
  /\ flashes (snd (profile rename_with_password alice_world))
     = (flashes alice_world ++ [("success", msg_profile_updated)])%list.
Proof.
  apply (profile_success_rehashes alice_world alice_world_loaded alice
           rename_with_password); reflexivity.
Defined.

Lemma profile_leaves_other_rows_witness :
  users (snd (profile rename_with_password alice_world)) !! 1%nat = Some bob.
Proof.
  apply (profile_leaves_other_rows alice_world alice_world_loaded alice bob
           rename_with_password 1);
    [reflexivity | reflexivity | discriminate].
Defined.

Lemma login_without_valid_form_witness :
  snd (login login_blank_password anonymous_world)
  = with_trace (trace anonymous_world ++ [EvValidate "LoginForm"]) anonymous_world.
Proof.
  apply (login_without_valid_form anonymous_world anonymous_world
           login_blank_password); [reflexivity|].
  right. vm_compute. discriminate.
Defined.

Lemma failed_login_reveals_nothing_witness :
  fst (login login_alice_wrong anonymous_world)
  = fst (login login_alice_wrong initial_world)
  /\ (exists new,
        flashes (snd (login login_alice_wrong anonymous_world))
        = (flashes anonymous_world ++ new)%list
        /\ flashes (snd (login login_alice_wrong initial_world))
           = (flashes initial_world ++ new)%list)
  /\ session_user_id (snd (login login_alice_wrong anonymous_world))
     = session_user_id anonymous_world
  /\ session_user_id (snd (login login_alice_wrong initial_world))
     = session_user_id initial_world.
Proof.
  apply (failed_login_reveals_nothing anonymous_world anonymous_world
           initial_world initial_world login_alice_wrong);
    first [reflexivity | exact I].
Defined.

Lemma run_raises_only_in_profile_witness :
  fst (handler RProfile rename_to_dave
         (with_session
            (fst (default (None, false)
                    (jar (serve_all initial_server two_users_run) !! 0)))
            (snd (default (None, false)
                    (jar (serve_all initial_server two_users_run) !! 0)))
            (state (serve_all initial_server two_users_run))))
  = Raise (IntegrityError "UNIQUE constraint failed")
  /\ (RProfile = RProfile
      /\ IntegrityError "UNIQUE constraint failed"
         = IntegrityError "UNIQUE constraint failed").
Proof.
  split; [vm_compute; reflexivity|].
  apply (run_raises_only_in_profile two_users_run 0 RProfile rename_to_dave
           (IntegrityError "UNIQUE constraint failed")).
  vm_compute. reflexivity.
Defined.

Lemma limiter_limits_witness :
  exists c, startup env_production_default_key = Ok c
    /\ default_limits c
       = [ (getenv_default env_production_default_key "DEFAULT_RATE_LIMIT_DAY" "200"
            ++ codepoints " per day")%list;
           (getenv_default env_production_default_key "DEFAULT_RATE_LIMIT_HOUR" "50"
            ++ codepoints " per hour")%list ]
    /\ login_limit c
       = getenv_default env_production_default_key "LOGIN_RATE_LIMIT" "5/minute"
    /\ register_limit c
       = getenv_default env_production_default_key "REGISTER_RATE_LIMIT" "3/hour"
    /\ default_limits c = [codepoints "200 per day"; codepoints "50 per hour"].
Proof.
  eexists. split; [vm_compute; reflexivity|].
  edestruct (limiter_limits env_production_default_key) as (Hd & Hl & Hr & Hdef);
    [vm_compute; reflexivity|].
  split; [exact Hd|]. split; [exact Hl|]. split; [exact Hr|].
  apply Hdef; reflexivity.
Defined.

Lemma cors_origins_spec_witness :
  cors_origins (ALLOWED_ORIGINS env_two_origins)
  = OriginList [codepoints "https://a.example"; codepoints "https://b.example"]
  /\ length [codepoints "https://a.example"; codepoints "https://b.example"]
     = S (length (filter (fun c => c = 44) (ALLOWED_ORIGINS env_two_origins)))
  /\ Forall (fun o => (44 ∉ o) /\ strip o = o)
       [codepoints "https://a.example"; codepoints "https://b.example"].
Proof.
  split; [reflexivity|].
  destruct (cors_origins_spec env_two_origins) as [_ Hlist].
  apply Hlist. reflexivity.
Defined.
